(** * PokeAPI ingestion script: a shallow embedding of [src/pokeapi.py]

    The script fetches one listing page from the PokeAPI, fetches the
    detail document of every listed entry, flattens each document into
    a row, collects the rows in a pandas [DataFrame], prints a summary
    and writes a CSV file.

    Conventions of the embedding.
    - A parsed JSON document is a value of [json].  JSON objects are
      Python dicts, modelled as [gmap string json]; JSON numbers are
      integers ([Z]), which is what the PokeAPI documents carry.
    - A Python [str] is a [string] of bytes (its UTF-8 encoding).  All
      the characters the script looks for (comma, quote, newline, the
      separator ", ") are ASCII, so nothing depends on the difference.
    - A Python exception is a value of [exn]; code that may raise
      returns an [outcome].
    - A Python [float] is an exact rational (or NaN): the mean and its
      rounding are computed without the error of binary64.
    - Effects (HTTP requests, [print], [time.sleep], [to_csv]) are
      recorded as a list of [event]s; the network is an oracle that the
      development is parametric in. *)

From Stdlib Require Import ZArith QArith Qround Lqa String Ascii List Lia.
From Stdlib Require Import DecimalString DecimalPos DecimalZ.
From stdpp Require Import base option list gmap strings.

Set Warnings "-register-all".
#[local] Open Scope string_scope.
#[local] Open Scope list_scope.

(** ** Python values and exceptions *)

Inductive json :=
  | JNull
  | JBool (b : bool)
  | JInt (z : Z)
  | JStr (s : string)
  | JList (l : list json)
  | JObj (m : gmap string json).

(** The subclasses of [Exception] the script can meet.  The first three
    come from the interpreter, the others from [requests].  What is not
    an [Exception] ([KeyboardInterrupt], [SystemExit]) is not modelled:
    [except Exception] catches every [exn]. *)
Inductive exn :=
  | AttributeError
  | TypeError
  | KeyError (key : string)
  | HTTPError (status : Z)
  | JSONDecodeError
  | RequestException (why : string).

Inductive outcome (A : Type) :=
  | Return (a : A)
  | Raise (e : exn).
Arguments Return {A} a.
Arguments Raise {A} e.

#[global] Instance outcome_ret : MRet outcome := λ A a, Return a.
#[global] Instance outcome_bind : MBind outcome := λ A B f m,
  match m with
  | Return a => f a
  | Raise e => Raise e
  end.

(** [d.get(key, default)]: only a dict has the method. *)
Definition dict_get (d : json) (key : string) (dflt : json) : outcome json :=
  match d with
  | JObj m => Return (default dflt (m !! key))
  | _ => Raise AttributeError
  end.

(** [v[key]] for a string key: a dict is looked up, every other value
    refuses a string subscript. *)
Definition subscript (v : json) (key : string) : outcome json :=
  match v with
  | JObj m =>
      match m !! key with
      | Some x => Return x
      | None => Raise (KeyError key)
      end
  | _ => Raise TypeError
  end.

(** The items a [for] loop or a comprehension draws from a value: the
    elements of a list, the characters of a string, the keys of a dict.
    (Python yields dict keys in insertion order and the characters of a
    string one code point at a time; the script subscripts or calls
    [.get] on each item, which fails in the same way for every string,
    so neither the order nor the cutting of the string matters here.) *)
Definition py_iter (v : json) : outcome (list json) :=
  match v with
  | JList l => Return l
  | JStr s => Return ((λ c, JStr (String c EmptyString)) <$> list_ascii_of_string s)
  | JObj m => Return (JStr <$> (map_to_list m).*1)
  | _ => Raise TypeError
  end.

Definition as_str (v : json) : outcome string :=
  match v with
  | JStr s => Return s
  | _ => Raise TypeError
  end.

(** [sep.join(items)]: every item has to be a [str]. *)
Definition str_join (sep : string) (items : list json) : outcome string :=
  strs ← mapM as_str items; mret (String.concat sep strs).

(** ** The record flattener, [parse_pokemon_details] *)

Record FlatRow := {
  row_id : json;
  row_name : json;
  row_height_dm : json;
  row_weight_hg : json;
  row_base_experience : json;
  row_types : string;
  row_abilities : string;
}.

(** The dict view of a row, keys in the order the dict literal lists
    them. *)
Definition row_items (r : FlatRow) : list (string * json) :=
  [ ("id", row_id r); ("name", row_name r);
    ("height_dm", row_height_dm r); ("weight_hg", row_weight_hg r);
    ("base_experience", row_base_experience r);
    ("types", JStr (row_types r)); ("abilities", JStr (row_abilities r)) ].

(** [[x[inner]["name"] for x in details.get(key, [])]] *)
Definition nested_names (details : json) (key inner : string)
  : outcome (list json) :=
  seq ← dict_get details key (JList []);
  items ← py_iter seq;
  mapM (λ x, y ← subscript x inner; subscript y "name") items.

Definition parse_pokemon_details (details : json) : outcome FlatRow :=
  types ← nested_names details "types" "type";
  abilities ← nested_names details "abilities" "ability";
  id_ ← dict_get details "id" JNull;
  name ← dict_get details "name" JNull;
  height ← dict_get details "height" JNull;
  weight ← dict_get details "weight" JNull;
  base_experience ← dict_get details "base_experience" JNull;
  types_joined ← str_join ", " types;
  abilities_joined ← str_join ", " abilities;
  mret {| row_id := id_;
          row_name := name;
          row_height_dm := height;
          row_weight_hg := weight;
          row_base_experience := base_experience;
          row_types := types_joined;
          row_abilities := abilities_joined |}.

(** ** The table of rows, [pandas.DataFrame]

    Only what the script uses is modelled: construction from a list of
    dicts, [len], [head], column selection, [dropna], [mean] and (further
    down) [to_csv].  A frame built from no dict at all has no column. *)

Record DataFrame := {
  df_columns : list string;
  df_rows : list FlatRow;
}.

(** [pd.DataFrame(rows)]: the columns are the keys of the dicts, and
    every row of the script has the same seven keys. *)
Definition pd_DataFrame (rows : list FlatRow) : DataFrame :=
  {| df_columns := match rows with
                   | [] => []
                   | r :: _ => (row_items r).*1
                   end;
     df_rows := rows |}.

Definition df_len (df : DataFrame) : nat := length (df_rows df).

Definition df_head (n : nat) (df : DataFrame) : DataFrame :=
  {| df_columns := df_columns df; df_rows := take n (df_rows df) |}.

Definition row_cell (col : string) (r : FlatRow) : json :=
  default JNull (snd <$> List.find (λ kv, String.eqb (fst kv) col) (row_items r)).

(** [df[col]]: the cells of one column, or [KeyError]. *)
Definition df_getitem (df : DataFrame) (col : string) : outcome (list json) :=
  if existsb (String.eqb col) (df_columns df)
  then Return (row_cell col <$> df_rows df)
  else Raise (KeyError col).

Definition isna (v : json) : bool :=
  match v with JNull => true | _ => false end.

(** [Series.dropna()] *)
Definition dropna (s : list json) : list json :=
  List.filter (λ v, negb (isna v)) s.

(** The number a cell counts as in a sum ([bool] is a subclass of [int]);
    strings, lists and dicts cannot be averaged. *)
Definition numeric (v : json) : outcome Z :=
  match v with
  | JInt z => Return z
  | JBool b => Return (if b then 1 else 0)%Z
  | _ => Raise TypeError
  end.

(** A Python [float] result.  Arithmetic is exact (a rational) instead of
    binary64; [NaN] is what pandas answers for the mean of nothing. *)
Inductive pyfloat :=
  | Finite (q : Q)
  | NaN.

Definition sum_Z (l : list Z) : Z := foldr Z.add 0%Z l.

(** [Series.mean()] of a series without missing values. *)
Definition series_mean (s : list json) : outcome pyfloat :=
  match s with
  | [] => Return NaN
  | _ :: _ =>
      vals ← mapM numeric s;
      mret (Finite (Qred (sum_Z vals # Pos.of_nat (length vals))))
  end.

(** Nearest integer, ties to the even neighbour. *)
Definition rint (q : Q) : Z :=
  let f := Qfloor q in
  match Qcompare (q - inject_Z f) (1 # 2) with
  | Lt => f
  | Gt => (f + 1)%Z
  | Eq => if Z.even f then f else (f + 1)%Z
  end.

(** [round(x, ndigits)] for [ndigits >= 0]. *)
Definition py_round (x : pyfloat) (ndigits : nat) : pyfloat :=
  match x with
  | NaN => NaN
  | Finite q =>
      let scale := inject_Z (10 ^ Z.of_nat ndigits) in
      Finite (Qred (inject_Z (rint (q * scale)) / scale))
  end.

(** [round(df["base_experience"].dropna().mean(), 2)], line 94. *)
Definition average_base_experience (df : DataFrame) : outcome pyfloat :=
  col ← df_getitem df "base_experience";
  avg ← series_mean (dropna col);
  mret (py_round avg 2).

(** ** Effects *)

Definition query := list (string * Z).

Inductive message :=
  | MsgError (name : json) (e : exn)      (* f"Error fetching {name}: {repr(e)}" *)
  | MsgText (s : string)
  | MsgFrame (df : DataFrame)
  | MsgTotal (n : nat)
  | MsgAverage (avg : pyfloat)
  | MsgSaved (n : nat) (path : string).

Inductive event :=
  | EvGet (url : json) (params : option query)
  | EvPrint (m : message)
  | EvSleep (seconds : Q)
  | EvToCsv (path : string) (df : DataFrame).

(** What [requests.get] hands back: the status line and what
    [response.json()] makes of the body. *)
Record Response := {
  status_code : Z;
  json_body : outcome json;
}.

Definition BASE_URL : string := "https://pokeapi.co/api/v2/".

(** [urljoin(BASE_URL, "pokemon/")] *)
Definition POKEMON_ENDPOINT : string := BASE_URL +:+ "pokemon/".

Definition raise_for_status (r : Response) : outcome unit :=
  if ((400 <=? status_code r) && (status_code r <? 600))%Z
  then Raise (HTTPError (status_code r))
  else Return tt.

Section Network.
(** The outside world and the one primitive that reaches it:
    [requests.get(url, headers=, params=, timeout=)] either raises or
    returns a response. *)
Context {World : Type}.
Variable requests_get :
  json → list (string * string) → option query → Z →
  World → outcome Response * World.

(** The interpreter state the script mutates: the world, and the list
    object bound to [rows] in [scrape_pokemon]. *)
Record state := {
  st_world : World;
  st_rows : list FlatRow;
}.

Definition M (A : Type) : Type := state → outcome A * list event * state.

#[global] Instance M_ret : MRet M := λ A a s, (Return a, [], s).
#[global] Instance M_bind : MBind M := λ A B f m s,
  match m s with
  | (Return a, evs, s') =>
      match f a s' with
      | (r, evs', s'') => (r, evs ++ evs', s'')
      end
  | (Raise e, evs, s') => (Raise e, evs, s')
  end.

Definition lift {A} (o : outcome A) : M A := λ s, (o, [], s).

Definition emit (ev : event) : M unit := λ s, (Return tt, [ev], s).

Definition print (m : message) : M unit := emit (EvPrint m).

Definition sleep (seconds : Q) : M unit := emit (EvSleep seconds).

(** [try: body / except Exception as e: handler(e)] *)
Definition try_except {A} (body : M A) (handler : exn → M A) : M A := λ s,
  match body s with
  | (Return a, evs, s') => (Return a, evs, s')
  | (Raise e, evs, s') =>
      match handler e s' with
      | (r, evs', s'') => (r, evs ++ evs', s'')
      end
  end.

Fixpoint for_each {A} (items : list A) (body : A → M unit) : M unit :=
  match items with
  | [] => mret tt
  | x :: rest => body x;; for_each rest body
  end.

Definition rows_new : M unit :=
  λ s, (Return tt, [], {| st_world := st_world s; st_rows := [] |}).

Definition rows_append (r : FlatRow) : M unit :=
  λ s, (Return tt, [], {| st_world := st_world s; st_rows := st_rows s ++ [r] |}).

Definition rows_read : M (list FlatRow) := λ s, (Return (st_rows s), [], s).

Definition http_get (url : json) (params : option query) : M Response := λ s,
  match requests_get url [("User-Agent", "CMCC-API-Assignment/1.0")] params 20
          (st_world s) with
  | (r, w) => (r, [EvGet url params], {| st_world := w; st_rows := st_rows s |})
  end.

Definition fetch_json (url : json) (params : option query) : M json :=
  response ← http_get url params;
  lift (raise_for_status response);;
  lift (json_body response).

(** The body of the [try] block: fetch the detail document, flatten
    it, append the row. *)
Definition fetch_and_append (url : json) : M unit :=
  details ← fetch_json url None;
  row ← lift (parse_pokemon_details details);
  rows_append row.

(** One turn of the loop of [scrape_pokemon].  The counter that
    [enumerate] supplies is never read and is left out.  The two [.get]
    calls stand before the [try]: on an entry that is not a dict their
    [AttributeError] leaves the loop. *)
Definition scrape_entry (pokemon : json) : M unit :=
  name ← lift (dict_get pokemon "name" JNull);
  url ← lift (dict_get pokemon "url" JNull);
  try_except (fetch_and_append url)
             (λ e, print (MsgError name e));;
  sleep (2 # 10).

Definition scrape_pokemon (limit offset : Z) : M DataFrame :=
  rows_new;;
  listing ← fetch_json (JStr POKEMON_ENDPOINT)
                       (Some [("limit", limit); ("offset", offset)]);
  results ← lift (dict_get listing "results" (JList []));
  items ← lift (py_iter results);
  for_each items scrape_entry;;
  rows ← rows_read;
  mret (pd_DataFrame rows).

Definition output_file : string := "pokemon_api_data.csv".

(** [df.to_csv(path, index=False)]: the event records the frame; the
    text that ends up in the file is [to_csv_text] below. *)
Definition to_csv (path : string) (df : DataFrame) : M unit :=
  emit (EvToCsv path df).

Definition main : M unit :=
  let LIMIT := 150%Z in
  df ← scrape_pokemon LIMIT 0;
  print (MsgText "Data Preview:");;
  print (MsgFrame (df_head 15 df));;
  print (MsgTotal (df_len df));;
  avg ← lift (average_base_experience df);
  print (MsgAverage avg);;
  to_csv output_file df;;
  print (MsgSaved (df_len df) output_file).

(** *** The run of the loop, entry by entry

    What one call of [fetch_json] comes to, without the trace: the
    document, or the exception of [requests.get], of
    [raise_for_status] or of [response.json()]. *)
Definition fetch_result (url : json) (params : option query) (w : World)
  : outcome json * World :=
  match requests_get url [("User-Agent", "CMCC-API-Assignment/1.0")] params 20 w with
  | (Return response, w') =>
      (raise_for_status response;; json_body response, w')
  | (Raise e, w') => (Raise e, w')
  end.

Definition entry_name (pokemon : json) : json :=
  match pokemon with
  | JObj m => default JNull (m !! "name")
  | _ => JNull
  end.

Definition entry_url (pokemon : json) : json :=
  match pokemon with
  | JObj m => default JNull (m !! "url")
  | _ => JNull
  end.

(** The detail fetch of every entry in turn, the world threaded from
    one request to the next: each entry with its document or fault. *)
Fixpoint entry_fetches (items : list json) (w : World)
  : list (json * outcome json) :=
  match items with
  | [] => []
  | pokemon :: rest =>
      match fetch_result (entry_url pokemon) None w with
      | (o, w') => (pokemon, o) :: entry_fetches rest w'
      end
  end.

Fixpoint world_after (items : list json) (w : World) : World :=
  match items with
  | [] => w
  | pokemon :: rest =>
      world_after rest (fetch_result (entry_url pokemon) None w).2
  end.

End Network.

(** ** The exported file, [df.to_csv(path, index=False)]

    pandas hands the header and the rows to Python's [csv.writer] with
    the comma as delimiter, minimal quoting and doubled quotes: a field is
    enclosed in quotes when it holds a comma, a quote or a line break. *)

Definition comma : ascii := ","%char.
Definition dquote : ascii := "034"%char.
Definition LF : ascii := "010"%char.
Definition CR : ascii := "013"%char.

Definition str1 (c : ascii) : string := String c EmptyString.

Definition special (c : ascii) : bool :=
  Ascii.eqb c comma || Ascii.eqb c dquote || Ascii.eqb c LF || Ascii.eqb c CR.

Fixpoint has_special (s : string) : bool :=
  match s with
  | EmptyString => false
  | String c s' => special c || has_special s'
  end.

(** Every quote character of a quoted field is written twice. *)
Fixpoint csv_escape (s : string) : string :=
  match s with
  | EmptyString => EmptyString
  | String c s' =>
      if Ascii.eqb c dquote
      then String dquote (String dquote (csv_escape s'))
      else String c (csv_escape s')
  end.

Definition csv_field (s : string) : string :=
  if has_special s
  then String dquote (csv_escape s +:+ str1 dquote)
  else s.

(** One line of the file.  A record whose only field is empty is written
    as a pair of quotes, so that it is not mistaken for a blank line. *)
Definition csv_record (fields : list string) : string :=
  match fields with
  | [EmptyString] => String dquote (str1 dquote)
  | _ => String.concat (str1 comma) (csv_field <$> fields)
  end +:+ str1 LF.

Fixpoint csv_write (table : list (list string)) : string :=
  match table with
  | [] => EmptyString
  | r :: table' => csv_record r +:+ csv_write table'
  end.

(** Decimal text of an integer, as [str(int)] writes it. *)
Definition string_of_Z (z : Z) : string := NilZero.string_of_int (Z.to_int z).

Definition Z_of_string (s : string) : option Z :=
  Z.of_int <$> NilZero.int_of_string s.

Definition is_int (v : json) : bool :=
  match v with JInt _ => true | _ => false end.

Definition is_int64 (v : json) : bool :=
  match v with
  | JInt z => ((- 2 ^ 63 <=? z) && (z <? 2 ^ 63))%Z
  | _ => false
  end.

(** pandas stores a column of integers and missing values as [float64]
    (the missing ones as NaN); a column of integers alone stays integer,
    and any other mixture is a column of Python objects. *)
Definition column_is_float (cells : list json) : bool :=
  existsb isna cells && existsb is_int cells
  && forallb (λ v, isna v || is_int64 v) cells.

Section CsvText.
(** Two printers of the Python runtime are left open: the text of the
    [float] an integer was converted to, and [str] of a list or dict. *)
Variable float_repr : Z → string.
Variable py_str : json → string.

Definition cell_text (as_float : bool) (v : json) : string :=
  match v with
  | JNull => EmptyString
  | JInt z => if as_float then float_repr z else string_of_Z z
  | JStr s => s
  | JBool b => if b then "True" else "False"
  | JList _ | JObj _ => py_str v
  end.

Definition df_column (df : DataFrame) (col : string) : list json :=
  row_cell col <$> df_rows df.

Definition record_of_row (df : DataFrame) (r : FlatRow) : list string :=
  (λ col, cell_text (column_is_float (df_column df col)) (row_cell col r))
    <$> df_columns df.

Definition to_csv_table (df : DataFrame) : list (list string) :=
  df_columns df :: (record_of_row df <$> df_rows df).

(** The content of the file [to_csv] writes. *)
Definition to_csv_text (df : DataFrame) : string :=
  csv_write (to_csv_table df).
End CsvText.

(** ** Reading the file back

    Modelled from the spec: the repository has no reader; "re-reading
    the exported line" is taken to be what a CSV reader of the same
    dialect does (Python's [csv.reader]): fields are separated by commas,
    records by line feeds, a field may be enclosed in quotes and then
    holds commas and line breaks, with a doubled quote for a quote. *)

Inductive rstate :=
  | FieldStart
  | InField
  | InQuoted
  | QuoteSeen.

Fixpoint csv_read_from (st : rstate) (cur : string) (rec : list string)
    (s : string) : list (list string) :=
  match s with
  | EmptyString =>
      match st, rec with
      | FieldStart, [] => []
      | _, _ => [rec ++ [cur]]
      end
  | String c s' =>
      match st with
      | FieldStart =>
          if Ascii.eqb c dquote then csv_read_from InQuoted EmptyString rec s'
          else if Ascii.eqb c comma
          then csv_read_from FieldStart EmptyString (rec ++ [EmptyString]) s'
          else if Ascii.eqb c LF
          then match rec with
               | [] => []
               | _ => rec ++ [EmptyString]
               end :: csv_read_from FieldStart EmptyString [] s'
          else csv_read_from InField (str1 c) rec s'
      | InField =>
          if Ascii.eqb c comma
          then csv_read_from FieldStart EmptyString (rec ++ [cur]) s'
          else if Ascii.eqb c LF
          then (rec ++ [cur]) :: csv_read_from FieldStart EmptyString [] s'
          else csv_read_from InField (cur +:+ str1 c) rec s'
      | InQuoted =>
          if Ascii.eqb c dquote then csv_read_from QuoteSeen cur rec s'
          else csv_read_from InQuoted (cur +:+ str1 c) rec s'
      | QuoteSeen =>
          if Ascii.eqb c dquote
          then csv_read_from InQuoted (cur +:+ str1 dquote) rec s'
          else if Ascii.eqb c comma
          then csv_read_from FieldStart EmptyString (rec ++ [cur]) s'
          else if Ascii.eqb c LF
          then (rec ++ [cur]) :: csv_read_from FieldStart EmptyString [] s'
          else csv_read_from InField (cur +:+ str1 c) rec s'
      end
  end.

Definition csv_read (s : string) : list (list string) :=
  csv_read_from FieldStart EmptyString [] s.

(** Modelled from the spec: "splitting on the separator" is Python's
    [s.split(sep)] for a non-empty [sep]: the pieces between the
    occurrences of [sep], found from left to right; there is always at
    least one piece.  [skip] counts the characters of a separator that
    are still to be passed over. *)
Fixpoint split_from (sep : string) (skip : nat) (cur : string) (s : string)
  : list string :=
  match s with
  | EmptyString => [cur]
  | String c s' =>
      match skip with
      | S k => split_from sep k cur s'
      | O =>
          if String.prefix sep s
          then cur :: split_from sep (String.length sep - 1) EmptyString s'
          else split_from sep 0 (cur +:+ str1 c) s'
      end
  end.

Definition py_split (sep : string) (s : string) : list string :=
  split_from sep 0 EmptyString s.


Definition SEP : string := ", ".

(** ** Detail documents as the data model describes them

    A valid detail document is an object with an integer [id], [height]
    and [weight], a string [name], a [base_experience] that is an integer,
    null or absent, and [types] / [abilities] that are lists of objects
    [{"type": {"name": str}}] / [{"ability": {"name": str}}]. *)

Definition name_of (inner : string) (x : json) : option string :=
  match x with
  | JObj m =>
      match m !! inner with
      | Some (JObj m') =>
          match m' !! "name" with
          | Some (JStr s) => Some s
          | _ => None
          end
      | _ => None
      end
  | _ => None
  end.

Definition names_in (inner : string) (v : json) : option (list string) :=
  match v with
  | JList l => mapM (name_of inner) l
  | _ => None
  end.

Record Detail := {
  d_id : Z;
  d_name : string;
  d_height : Z;
  d_weight : Z;
  d_base_experience : option Z;
  d_types : list string;
  d_abilities : list string;
}.

Definition int_field (m : gmap string json) (key : string) : option Z :=
  match m !! key with
  | Some (JInt z) => Some z
  | _ => None
  end.

Definition str_field (m : gmap string json) (key : string) : option string :=
  match m !! key with
  | Some (JStr s) => Some s
  | _ => None
  end.

Definition opt_int_field (m : gmap string json) (key : string)
  : option (option Z) :=
  match m !! key with
  | Some (JInt z) => Some (Some z)
  | Some JNull | None => Some None
  | _ => None
  end.

(** The content of a valid detail document; [None] on any other
    value. *)
Definition read_detail (d : json) : option Detail :=
  match d with
  | JObj m =>
      i ← int_field m "id";
      n ← str_field m "name";
      h ← int_field m "height";
      w ← int_field m "weight";
      b ← opt_int_field m "base_experience";
      ts ← (m !! "types") ≫= names_in "type";
      abs ← (m !! "abilities") ≫= names_in "ability";
      Some {| d_id := i; d_name := n; d_height := h; d_weight := w;
              d_base_experience := b; d_types := ts; d_abilities := abs |}
  | _ => None
  end.

Definition valid_detail (d : json) : bool := bool_decide (is_Some (read_detail d)).

(** ** Entries, faults and traces

    An entry of the listing yields a row when its detail fetch and the
    flattening of the document both succeed, and a fault otherwise. *)

Definition flatten_fetched (o : outcome json) : outcome FlatRow :=
  d ← o; parse_pokemon_details d.

Definition row_of (po : json * outcome json) : option FlatRow :=
  match flatten_fetched po.2 with
  | Return r => Some r
  | Raise _ => None
  end.

Definition fault_of (po : json * outcome json) : option message :=
  match flatten_fetched po.2 with
  | Return _ => None
  | Raise e =>
      Some (MsgError (entry_name po.1) e)
  end.

(** The rows of the entries that succeeded, in listing order. *)
Definition rows_of (fetched : list (json * outcome json)) : list FlatRow :=
  omap row_of fetched.

(** The failure log: one message per entry that failed. *)
Definition faults_of (fetched : list (json * outcome json)) : list message :=
  omap fault_of fetched.

Definition is_dict (v : json) : bool :=
  match v with JObj _ => true | _ => false end.

Definition printed (tr : list event) : list message :=
  omap (λ ev, match ev with EvPrint m => Some m | _ => None end) tr.

Definition error_messages (tr : list event) : list message :=
  List.filter (λ m, match m with MsgError _ _ => true | _ => false end)
              (printed tr).


Definition is_sleep (ev : event) : bool :=
  match ev with EvSleep _ => true | _ => false end.

Definition is_to_csv (ev : event) : bool :=
  match ev with EvToCsv _ _ => true | _ => false end.

(** The requests for a detail document are those sent without query
    parameters. *)
Definition is_detail_get (ev : event) : bool :=
  match ev with EvGet _ None => true | _ => false end.

Definition PACING : Q := 2 # 10.

(** A trace is paced when every request is preceded, since the request
    before it, by a pause of [PACING]; [rested] tells whether such a
    pause has been taken since the last request. *)
Fixpoint paced (rested : bool) (tr : list event) : bool :=
  match tr with
  | [] => true
  | EvGet _ _ :: tr' => rested && paced false tr'
  | EvSleep d :: tr' => Qeq_bool d PACING && paced true tr'
  | _ :: tr' => paced rested tr'
  end.

Fixpoint rested_after (rested : bool) (tr : list event) : bool :=
  match tr with
  | [] => rested
  | EvGet _ _ :: tr' => rested_after false tr'
  | EvSleep _ :: tr' => rested_after true tr'
  | _ :: tr' => rested_after rested tr'
  end.

(** ** Sample documents and a table-driven network *)

Definition named (inner n : string) : json :=
  JObj {[ inner := JObj {[ "name" := JStr n ]} ]}.

Definition detail (i : Z) (n : string) (h w : Z) (b : json)
    (ts abs : list string) : json :=
  JObj (list_to_map
    [ ("id", JInt i); ("name", JStr n); ("height", JInt h);
      ("weight", JInt w); ("base_experience", b);
      ("types", JList (named "type" <$> ts));
      ("abilities", JList (named "ability" <$> abs)) ]).

Definition bulbasaur : json :=
  detail 1 "bulbasaur" 7 69 (JInt 64) ["grass"; "poison"] ["overgrow"; "chlorophyll"].

Definition ivysaur : json :=
  detail 2 "ivysaur" 10 130 (JInt 142) ["grass"; "poison"] ["overgrow"].

Definition venusaur : json :=
  detail 3 "venusaur" 20 1000 JNull ["grass"] ["overgrow"].


Definition entry (n url : string) : json :=
  JObj {[ "name" := JStr n; "url" := JStr url ]}.

Definition listing_of (entries : list json) : json :=
  JObj {[ "count" := JInt 1302; "results" := JList entries ]}.

Definition ok (body : json) : outcome Response :=
  Return {| status_code := 200; json_body := Return body |}.

(** A network that answers from a table of URLs and knows no other
    host; its world has no state. *)
Definition serve (table : list (string * outcome Response))
    (url : json) (headers : list (string * string)) (params : option query)
    (timeout : Z) (w : unit) : outcome Response * unit :=
  match url with
  | JStr u =>
      match List.find (λ kv, String.eqb kv.1 u) table with
      | Some kv => (kv.2, w)
      | None => (Raise (RequestException "ConnectionError"), w)
      end
  | _ => (Raise (RequestException "MissingSchema"), w)
  end.

Definition three_entries : list json :=
  [ entry "bulbasaur" "u/1"; entry "ivysaur" "u/2"; entry "venusaur" "u/3" ].

(** All three detail documents are served. *)
Definition net_ok : list (string * outcome Response) :=
  [ (POKEMON_ENDPOINT, ok (listing_of three_entries));
    ("u/1", ok bulbasaur); ("u/2", ok ivysaur); ("u/3", ok venusaur) ].

(** The second detail fetch times out. *)
Definition net_timeout : list (string * outcome Response) :=
  [ (POKEMON_ENDPOINT, ok (listing_of three_entries));
    ("u/1", ok bulbasaur);
    ("u/2", Raise (RequestException "ReadTimeout"));
    ("u/3", ok venusaur) ].

(** The listing itself is refused. *)
Definition net_down : list (string * outcome Response) :=
  [ (POKEMON_ENDPOINT,
     Return {| status_code := 503; json_body := Raise JSONDecodeError |}) ].

(** The listing is an object without a [results] key. *)
Definition net_no_results : list (string * outcome Response) :=
  [ (POKEMON_ENDPOINT, ok (JObj {[ "count" := JInt 0 ]})) ].

Definition start : @state unit := {| st_world := tt; st_rows := [] |}.

Definition row_with (b : json) : FlatRow :=
  {| row_id := JInt 1; row_name := JStr "x"; row_height_dm := JInt 1;
     row_weight_hg := JInt 1; row_base_experience := b;
     row_types := "normal"; row_abilities := "run-away" |}.

(** Python's [repr] of the float of a small integer. *)
Definition small_float_repr (z : Z) : string := string_of_Z z +:+ ".0".

Definition no_str (v : json) : string := "".

(** The joined string a detail document yields for [types] or
    [abilities], as a function of what the document holds under that key
    ([None] when the key is absent). *)
Definition joined_names (field : option json) (inner : string) : outcome string :=
  items ← py_iter (default (JList []) field);
  names ← mapM (λ x, y ← subscript x inner; subscript y "name") items;
  str_join SEP names.

(** The events one turn of the loop leaves for an entry: the request,
    the error message if the entry failed, the pause. *)
Definition entry_events (po : json * outcome json) : list event :=
  EvGet (entry_url po.1) None
    :: (EvPrint <$> option_list (fault_of po)) ++ [EvSleep PACING].

Definition loop_trace (fetched : list (json * outcome json)) : list event :=
  concat (entry_events <$> fetched).

(** The entries of a listing page as the data model describes it: an
    object whose [results] is a list of objects. *)
Definition page_entries (listing : json) : option (list json) :=
  match listing with
  | JObj m =>
      match m !! "results" with
      | Some (JList items) => if forallb is_dict items then Some items else None
      | _ => None
      end
  | _ => None
  end.

(** The type of the network oracle. *)
Definition network (World : Type) : Type :=
  json → list (string * string) → option query → Z →
  World → outcome Response * World.

(** A page with two entries only, as the last page of the collection
    is whatever [limit] asks for. *)
Definition net_last_page : list (string * outcome Response) :=
  [ (POKEMON_ENDPOINT,
     ok (listing_of [entry "bulbasaur" "u/1"; entry "ivysaur" "u/2"]));
    ("u/1", ok bulbasaur); ("u/2", ok ivysaur) ].

(** ** The summary, in the words of the specification

    The integers of a column of integers and nulls, in order; [None] if
    the column holds anything else. *)
Fixpoint int_cells (cells : list json) : option (list Z) :=
  match cells with
  | [] => Some []
  | JNull :: rest => int_cells rest
  | JInt z :: rest => cons z <$> int_cells rest
  | _ :: _ => None
  end.

(** The arithmetic mean of a non-empty list of integers. *)
Definition mean (vals : list Z) : Q := sum_Z vals # Pos.of_nat (length vals).

(** A rational rounded to two decimal places: the nearest multiple of
    1/100, the even one of the two when it lies half-way. *)
Definition round2 (q : Q) : Q := inject_Z (rint (q * 100)) / 100.

Definition base_experiences (rows : list FlatRow) : list json :=
  row_base_experience <$> rows.

(** The row the data model expects for a valid detail document. *)
Definition detail_row (D : Detail) : FlatRow :=
  {| row_id := JInt (d_id D);
     row_name := JStr (d_name D);
     row_height_dm := JInt (d_height D);
     row_weight_hg := JInt (d_weight D);
     row_base_experience := from_option JInt JNull (d_base_experience D);
     row_types := String.concat SEP (d_types D);
     row_abilities := String.concat SEP (d_abilities D) |}.




(** A document that [parse_pokemon_details] flattens although it is not
    valid: it has a name and nothing else. *)
Definition anonymous : json := JObj {[ "name" := JStr "x" ]}.

(** ** Further constants and samples

    The header and the timeout (in seconds) every request carries. *)
Definition USER_AGENT : list (string * string) :=
  [("User-Agent", "CMCC-API-Assignment/1.0")].

Definition TIMEOUT : Z := 20.

(** The keys of a detail document that [parse_pokemon_details] reads. *)
Definition FLATTEN_KEYS : list string :=
  ["types"; "abilities"; "id"; "name"; "height"; "weight"; "base_experience"].

(** The values a [for] cannot iterate: [None], a number, a boolean. *)
Definition not_iterable (v : json) : Prop :=
  match v with
  | JNull | JBool _ | JInt _ => True
  | _ => False
  end.

(** A status that [raise_for_status] turns into an exception. *)
Definition error_status (status : Z) : Prop := (400 ≤ status < 600)%Z.

(** A listing whose second entry is a string instead of an object. *)
Definition net_bad_entry : list (string * outcome Response) :=
  [ (POKEMON_ENDPOINT,
     ok (listing_of [entry "bulbasaur" "u/1"; JStr "ivysaur";
                     entry "venusaur" "u/3"]));
    ("u/1", ok bulbasaur); ("u/3", ok venusaur) ].

(** A listing whose detail documents cannot be reached. *)
Definition net_all_fail : list (string * outcome Response) :=
  [ (POKEMON_ENDPOINT, ok (listing_of three_entries)) ].

(** An error page that carries a JSON body. *)
Definition net_error_page : list (string * outcome Response) :=
  [ ("u/1", Return {| status_code := 404;
                      json_body := Return (JObj {[ "detail" := JStr "Not found." ]}) |}) ].

(** A listing that is a JSON array, and one whose [results] is null. *)
Definition net_array_listing : list (string * outcome Response) :=
  [ (POKEMON_ENDPOINT, ok (JList [entry "bulbasaur" "u/1"])) ].

Definition net_null_results : list (string * outcome Response) :=
  [ (POKEMON_ENDPOINT, ok (JObj {[ "results" := JNull ]})) ].

(** The events a run of [scrape_pokemon] may leave: requests, error
    messages and pauses. *)
Definition collector_event (ev : event) : bool :=
  match ev with
  | EvGet _ _ | EvSleep _ | EvPrint (MsgError _ _) => true
  | _ => false
  end.

(** A listing whose entries and detail documents are all served, one of
    them without a [base_experience]. *)
Definition nulls_only : list FlatRow := [row_with JNull; row_with JNull].

(** A service that answers from a table like [serve], but refuses a
    request that does not carry the expected header, or that is ready to
    wait for another time than 20 seconds. *)
Definition picky (table : list (string * outcome Response))
    (url : json) (headers : list (string * string)) (params : option query)
    (timeout : Z) (w : unit) : outcome Response * unit :=
  if bool_decide (headers = USER_AGENT) && (timeout =? TIMEOUT)%Z
  then serve table url headers params timeout w
  else (Raise (RequestException "Forbidden"), w).


(** The query parameters of the listing request. *)
Definition listing_query (limit offset : Z) : option query :=
  Some [("limit", limit); ("offset", offset)].

(* ================================================================= *)
(** * Properties of the flattener *)

Lemma outcome_bind_assoc {A B C} (m : outcome A) (f : A → outcome B)
    (g : B → outcome C) :
  (m ≫= f) ≫= g = m ≫= (λ x, f x ≫= g).
Proof. by destruct m. Qed.

Lemma nested_names_dict m key inner :
  nested_names (JObj m) key inner =
  py_iter (default (JList []) (m !! key)) ≫=
    mapM (λ x, y ← subscript x inner; subscript y "name").
Proof. reflexivity. Qed.

(** If the names under [types] and [abilities] can be extracted and
    joined, the flattener returns, and the row is read off the document
    key by key. *)
Lemma parse_dict m ts abs :
  joined_names (m !! "types") "type" = Return ts →
  joined_names (m !! "abilities") "ability" = Return abs →
  parse_pokemon_details (JObj m) =
  Return {| row_id := default JNull (m !! "id");
            row_name := default JNull (m !! "name");
            row_height_dm := default JNull (m !! "height");
            row_weight_hg := default JNull (m !! "weight");
            row_base_experience := default JNull (m !! "base_experience");
            row_types := ts;
            row_abilities := abs |}.
Proof.
  unfold joined_names, parse_pokemon_details. intros Ht Ha.
  rewrite !nested_names_dict.
  destruct (py_iter (default (JList []) (m !! "types"))) as [its|]; [|done].
  simpl in Ht |- *.
  destruct (mapM _ its) as [tn|]; [|done]. simpl in Ht |- *.
  destruct (py_iter (default (JList []) (m !! "abilities"))) as [ias|]; [|done].
  simpl in Ha |- *.
  destruct (mapM _ ias) as [an|]; [|done]. simpl in Ha |- *.
  unfold SEP in *. rewrite Ht. simpl. rewrite Ha. reflexivity.
Qed.

Lemma joined_names_absent inner : joined_names None inner = Return "".
Proof. reflexivity. Qed.

(** C5. A detail document (a JSON object) that has neither a [types] nor
    an [abilities] key is flattened without an exception, and both joined
    fields of the row are the empty string. *)
Theorem C5_missing_sequences_flatten_to_empty (m : gmap string json) :
  m !! "types" = None →
  m !! "abilities" = None →
  ∃ r, parse_pokemon_details (JObj m) = Return r
       ∧ row_types r = "" ∧ row_abilities r = "".
Proof.
  intros Ht Ha. eexists. split.
  - apply parse_dict; [rewrite Ht | rewrite Ha]; apply joined_names_absent.
  - done.
Qed.

Lemma C5_witness :
  ∃ r, parse_pokemon_details (JObj {[ "id" := JInt 1; "name" := JStr "x" ]}) = Return r
       ∧ row_types r = "" ∧ row_abilities r = "".
Proof.
  apply (C5_missing_sequences_flatten_to_empty {[ "id" := JInt 1; "name" := JStr "x" ]});
    vm_compute; reflexivity.
Defined.

(** C6. For a detail document (a JSON object) whose [types] and
    [abilities] can be flattened, the flattener returns a row whose [id],
    [name], [height_dm], [weight_hg] and [base_experience] are the values
    stored under [id], [name], [height], [weight] and [base_experience],
    or [None] ([JNull]) for each of these keys that is absent.  The
    hypotheses speak of the two sequence fields only: no scalar field,
    present or missing, makes the flattener raise. *)
Theorem C6_scalars_copied_or_null (m : gmap string json) (ts abs : string) :
  joined_names (m !! "types") "type" = Return ts →
  joined_names (m !! "abilities") "ability" = Return abs →
  ∃ r, parse_pokemon_details (JObj m) = Return r
       ∧ row_id r = default JNull (m !! "id")
       ∧ row_name r = default JNull (m !! "name")
       ∧ row_height_dm r = default JNull (m !! "height")
       ∧ row_weight_hg r = default JNull (m !! "weight")
       ∧ row_base_experience r = default JNull (m !! "base_experience")
       ∧ (∀ key, m !! key = None → default JNull (m !! key) = JNull).
Proof.
  intros Ht Ha. eexists. split; [by apply parse_dict|].
  repeat split; try done. by intros key ->.
Qed.

Lemma C6_witness :
  ∃ r, parse_pokemon_details
         (JObj {[ "name" := JStr "x"; "types" := JList [named "type" "fire"] ]})
       = Return r
       ∧ row_id r = JNull ∧ row_name r = JStr "x" ∧ row_height_dm r = JNull
       ∧ row_weight_hg r = JNull ∧ row_base_experience r = JNull.
Proof.
  destruct (C6_scalars_copied_or_null
              {[ "name" := JStr "x"; "types" := JList [named "type" "fire"] ]}
              "fire" "") as (r & Hr & H1 & H2 & H3 & H4 & H5 & _).
  - vm_compute; reflexivity.
  - vm_compute; reflexivity.
  - exists r. repeat split; assumption.
Defined.

(* ================================================================= *)
(** * Properties of the collector *)
Section Runs.
Context {World : Type}.
Variable net :
  json → list (string * string) → option query → Z →
  World → outcome Response * World.

Lemma bind_run {A B} (m : M A) (f : A → M B) (s : state (World := World)) :
  (m ≫= f) s =
  match m s with
  | (Return a, evs, s') =>
      match f a s' with
      | (r, evs', s'') => (r, evs ++ evs', s'')
      end
  | (Raise e, evs, s') => (Raise e, evs, s')
  end.
Proof. reflexivity. Qed.

(** One call of [fetch_json] sends exactly one request, leaves [rows]
    alone, and answers what [fetch_result] says. *)
Lemma fetch_json_run url params (s : state) :
  fetch_json net url params s =
  ((fetch_result net url params (st_world s)).1,
   [EvGet url params],
   {| st_world := (fetch_result net url params (st_world s)).2;
      st_rows := st_rows s |}).
Proof.
  unfold fetch_json, fetch_result, http_get.
  rewrite bind_run.
  destruct (net url _ params 20 (st_world s)) as [[resp|e] w']; [|done].
  rewrite bind_run. unfold lift.
  destruct (raise_for_status resp) as [[]|e']; simpl; [|done].
  by destruct (json_body resp).
Qed.

Lemma lift_bind_run {A B} (o : outcome A) (f : A → M B) (s : state (World := World)) :
  (lift o ≫= f) s =
  match o with
  | Return a => f a s
  | Raise e => (Raise e, [], s)
  end.
Proof.
  rewrite bind_run. unfold lift. destruct o as [a|e]; [|done].
  by destruct (f a s) as [[r evs] s'].
Qed.

Lemma try_except_run {A} (body : M A) (handler : exn → M A)
    (s : state (World := World)) :
  try_except body handler s =
  match body s with
  | (Return a, evs, s') => (Return a, evs, s')
  | (Raise e, evs, s') =>
      match handler e s' with
      | (r, evs', s'') => (r, evs ++ evs', s'')
      end
  end.
Proof. reflexivity. Qed.

(** One turn of the loop on an entry that is an object: it never raises,
    appends the row if there is one, logs the fault otherwise, and
    pauses. *)
Lemma lift_return_bind {A B} (a : A) (f : A → M B) (s : state (World := World)) :
  (lift (Return a) ≫= f) s = f a s.
Proof. by rewrite lift_bind_run. Qed.

Lemma scrape_entry_run m (s : state) :
  let po := (JObj m, (fetch_result net (entry_url (JObj m)) None (st_world s)).1) in
  scrape_entry net (JObj m) s =
  (Return tt,
   entry_events po,
   {| st_world := (fetch_result net (entry_url (JObj m)) None (st_world s)).2;
      st_rows := st_rows s ++ option_list (row_of po) |}).
Proof.
  intros po. subst po.
  unfold scrape_entry, entry_events, row_of, fault_of, flatten_fetched.
  cbn [dict_get entry_url entry_name fst snd].
  rewrite !lift_return_bind.
  rewrite bind_run, try_except_run.
  unfold fetch_and_append. rewrite bind_run, fetch_json_run.
  destruct (fetch_result net (default JNull (m !! "url")) None (st_world s))
    as [[d|e] w']; cbn [fst snd mbind outcome_bind].
  - rewrite lift_bind_run.
    destruct (parse_pokemon_details d) as [r|e]; [reflexivity|].
    simpl (option_list None). rewrite (app_nil_r (st_rows s)). reflexivity.
  - simpl (option_list None). rewrite (app_nil_r (st_rows s)). reflexivity.
Qed.

Lemma scrape_entry_not_dict p (s : state) :
  is_dict p = false →
  scrape_entry net p s = (Raise AttributeError, [], s).
Proof. by destruct p. Qed.

(** The whole loop over a page of objects. *)
Lemma for_each_run items (s : state) :
  forallb is_dict items = true →
  for_each items (scrape_entry net) s =
  (Return tt,
   loop_trace (entry_fetches net items (st_world s)),
   {| st_world := world_after net items (st_world s);
      st_rows := st_rows s ++ rows_of (entry_fetches net items (st_world s)) |}).
Proof.
  revert s. induction items as [|p items IH]; intros s Hd.
  - simpl. rewrite app_nil_r. by destruct s.
  - simpl in Hd. apply andb_prop in Hd as [Hp Hd].
    destruct p as [| | | | |m]; try discriminate.
    cbn [for_each]. rewrite bind_run, scrape_entry_run. cbv zeta.
    rewrite (IH _ Hd). cbn [st_world st_rows entry_fetches world_after].
    destruct (fetch_result net (entry_url (JObj m)) None (st_world s)) as [o w'].
    cbn [fst snd]. unfold loop_trace, rows_of. cbn [fmap list_fmap concat omap list_omap].
    rewrite <- app_assoc. by destruct (row_of (JObj m, o)).
Qed.

(** A run of [scrape_pokemon] on a listing page of the expected shape:
    it returns the rows of the entries that succeeded, and its trace is
    the listing request followed by the events of each entry. *)
Lemma scrape_run limit offset (s : state) listing w1 items :
  fetch_result net (JStr POKEMON_ENDPOINT) (listing_query limit offset) (st_world s)
    = (Return listing, w1) →
  page_entries listing = Some items →
  scrape_pokemon net limit offset s =
  (Return (pd_DataFrame (rows_of (entry_fetches net items w1))),
   EvGet (JStr POKEMON_ENDPOINT) (listing_query limit offset)
     :: loop_trace (entry_fetches net items w1),
   {| st_world := world_after net items w1;
      st_rows := rows_of (entry_fetches net items w1) |}).
Proof.
  intros Hf Hp. unfold scrape_pokemon.
  rewrite bind_run. cbn [rows_new]. rewrite bind_run, fetch_json_run.
  cbn [st_world st_rows]. fold (listing_query limit offset). rewrite Hf.
  cbn [fst snd].
  destruct listing as [| | | | |m]; try discriminate. cbn [page_entries] in Hp.
  destruct (m !! "results") as [[| | | |l|]|] eqn:Hr; try discriminate.
  destruct (forallb is_dict l) eqn:Hd; [|discriminate].
  injection Hp as ->.
  cbn [dict_get]. rewrite Hr. cbn [from_option id].
  rewrite !lift_return_bind. cbn [py_iter]. rewrite lift_return_bind.
  rewrite bind_run, (for_each_run _ _ Hd). cbn [st_world st_rows app].
  rewrite bind_run. cbn [rows_read st_rows]. unfold mret, M_ret.
  rewrite !app_nil_r. reflexivity.
Qed.

Lemma entry_fetches_length items w :
  length (entry_fetches net items w) = length items.
Proof.
  revert w. induction items as [|p items IH]; intros w; [done|].
  cbn [entry_fetches]. destruct (fetch_result net _ None w) as [o w'].
  cbn [length]. by rewrite IH.
Qed.

Lemma entry_fetches_entries items w :
  (entry_fetches net items w).*1 = items.
Proof.
  revert w. induction items as [|p items IH]; intros w; [done|].
  cbn [entry_fetches]. destruct (fetch_result net _ None w) as [o w'].
  cbn. by rewrite IH.
Qed.

End Runs.

(** ** Counting rows, faults and events *)

Lemma row_or_fault po :
  (∃ r, row_of po = Some r ∧ fault_of po = None)
  ∨ (∃ e, row_of po = None ∧ fault_of po = Some (MsgError (entry_name po.1) e)).
Proof.
  unfold row_of, fault_of. destruct (flatten_fetched po.2) as [r|e]; eauto.
Qed.

Lemma rows_faults_length fetched :
  length (rows_of fetched) + length (faults_of fetched) = length fetched.
Proof.
  unfold rows_of, faults_of.
  induction fetched as [|po fetched IH]; [done|].
  cbn [omap list_omap length].
  destruct (row_or_fault po) as [(r & -> & ->)|(e & -> & ->)]; cbn [length]; lia.
Qed.



Lemma printed_app l1 l2 : printed (l1 ++ l2) = printed l1 ++ printed l2.
Proof. apply omap_app. Qed.

Lemma printed_entry_events po :
  printed (entry_events po) = option_list (fault_of po).
Proof.
  unfold entry_events, printed. cbn [omap list_omap].
  rewrite omap_app. destruct (fault_of po); reflexivity.
Qed.

Lemma printed_loop_trace fetched :
  printed (loop_trace fetched) = faults_of fetched.
Proof.
  unfold loop_trace, faults_of.
  induction fetched as [|po fetched IH]; [done|].
  cbn [fmap list_fmap concat omap list_omap].
  rewrite printed_app, printed_entry_events, IH.
  by destruct (fault_of po).
Qed.

Lemma faults_are_errors fetched :
  List.filter (λ m, match m with MsgError _ _ => true | _ => false end)
              (faults_of fetched) = faults_of fetched.
Proof.
  unfold faults_of. induction fetched as [|po fetched IH]; [done|].
  cbn [omap list_omap].
  destruct (row_or_fault po) as [(r & _ & ->)|(e & _ & ->)]; [done|].
  cbn [List.filter]. by rewrite IH.
Qed.

Lemma error_messages_loop_trace fetched :
  error_messages (loop_trace fetched) = faults_of fetched.
Proof.
  unfold error_messages. rewrite printed_loop_trace. apply faults_are_errors.
Qed.

Lemma filter_entry_events (f : event → bool) po :
  (∀ m, f (EvPrint m) = false) →
  List.filter f (entry_events po) =
  List.filter f [EvGet (entry_url po.1) None; EvSleep PACING].
Proof.
  intros Hf. unfold entry_events. cbn [List.filter].
  rewrite List.filter_app.
  replace (List.filter f (EvPrint <$> option_list (fault_of po))) with (@nil event).
  - reflexivity.
  - destruct (fault_of po); cbn; by rewrite ?Hf.
Qed.

Lemma sleeps_loop_trace fetched :
  List.filter is_sleep (loop_trace fetched) = (λ _, EvSleep PACING) <$> fetched.
Proof.
  unfold loop_trace. induction fetched as [|po fetched IH]; [done|].
  cbn [fmap list_fmap concat]. rewrite List.filter_app, IH.
  by rewrite filter_entry_events.
Qed.

Lemma detail_gets_loop_trace fetched :
  List.filter is_detail_get (loop_trace fetched) =
  (λ po, EvGet (entry_url po.1) None) <$> fetched.
Proof.
  unfold loop_trace. induction fetched as [|po fetched IH]; [done|].
  cbn [fmap list_fmap concat]. rewrite List.filter_app, IH.
  by rewrite filter_entry_events.
Qed.

Lemma paced_app b l1 l2 :
  paced b (l1 ++ l2) = paced b l1 && paced (rested_after b l1) l2.
Proof.
  revert b. induction l1 as [|ev l1 IH]; intros b; [done|].
  destruct ev; cbn [app paced rested_after]; rewrite IH;
    by rewrite ?andb_assoc.
Qed.

Lemma rested_after_app b l1 l2 :
  rested_after b (l1 ++ l2) = rested_after (rested_after b l1) l2.
Proof.
  revert b. induction l1 as [|ev l1 IH]; intros b; [done|].
  destruct ev; cbn [app rested_after]; by rewrite IH.
Qed.

Lemma entry_events_paced po :
  paced true (entry_events po) = true
  ∧ rested_after true (entry_events po) = true.
Proof.
  unfold entry_events. destruct (fault_of po); done.
Qed.

Lemma loop_trace_paced fetched :
  paced true (loop_trace fetched) = true
  ∧ rested_after true (loop_trace fetched) = true.
Proof.
  unfold loop_trace. induction fetched as [|po fetched [IH1 IH2]]; [done|].
  cbn [fmap list_fmap concat].
  destruct (entry_events_paced po) as [H1 H2].
  by rewrite paced_app, rested_after_app, H1, H2.
Qed.

(** ** The claims about the collector *)

(** C2, as stated, fails: with [limit=5] and a listing page of two
    entries (both fetched and flattened without a fault) the result has
    two rows, not [5 - 0]. *)
Lemma C2_counterexample :
  ∃ df evs s',
    scrape_pokemon (serve net_last_page) 5 0 start = (Return df, evs, s')
    ∧ error_messages evs = []
    ∧ df_len df = 2
    ∧ Z.of_nat (df_len df) ≠ (5 - Z.of_nat (length (error_messages evs)))%Z.
Proof.
  eexists _, _, _. split; [vm_compute; reflexivity|].
  split; [reflexivity|]. split; [reflexivity|]. vm_compute. discriminate.
Qed.

(** C2, amended.  On a listing page of objects, [scrape_pokemon] returns
    one row per entry whose detail fetch and flattening succeeded: the
    number of rows is the number of entries of the page minus the number
    of entries that failed, each of which is logged once.  The result has
    at most as many rows as the page has entries, hence at most [limit]
    rows whenever the service sent at most [limit] entries; the script
    itself never truncates the page. *)
Theorem C2_rows_are_entries_minus_failures
    {World} (net : network World) (limit offset : Z) (s : state)
    (listing : json) (w1 : World) (items : list json) :
  fetch_result net (JStr POKEMON_ENDPOINT) (listing_query limit offset) (st_world s)
    = (Return listing, w1) →
  page_entries listing = Some items →
  ∃ df evs s',
    scrape_pokemon net limit offset s = (Return df, evs, s')
    ∧ df_rows df = rows_of (entry_fetches net items w1)
    ∧ error_messages evs = faults_of (entry_fetches net items w1)
    ∧ df_len df = length items - length (error_messages evs)
    ∧ (df_len df ≤ length items)%nat
    ∧ (Z.of_nat (length items) ≤ limit → Z.of_nat (df_len df) ≤ limit)%Z.
Proof.
  intros Hf Hp. eexists _, _, _. split; [by eapply scrape_run|].
  pose proof (rows_faults_length (entry_fetches net items w1)) as Hlen.
  rewrite entry_fetches_length in Hlen.
  assert (error_messages
            (EvGet (JStr POKEMON_ENDPOINT) (listing_query limit offset)
               :: loop_trace (entry_fetches net items w1))
          = faults_of (entry_fetches net items w1)) as Herr
    by apply error_messages_loop_trace.
  rewrite Herr. unfold df_len. cbn [pd_DataFrame df_rows].
  repeat split; lia.
Qed.

Lemma C2_witness :
  ∃ df evs s',
    scrape_pokemon (serve net_timeout) 3 0 start = (Return df, evs, s')
    ∧ df_rows df = rows_of (entry_fetches (serve net_timeout) three_entries tt)
    ∧ error_messages evs = faults_of (entry_fetches (serve net_timeout) three_entries tt)
    ∧ df_len df = length three_entries - length (error_messages evs)
    ∧ (df_len df ≤ length three_entries)%nat
    ∧ (Z.of_nat (length three_entries) ≤ 3 → Z.of_nat (df_len df) ≤ 3)%Z.
Proof.
  apply (C2_rows_are_entries_minus_failures (serve net_timeout) 3 0 start
           (listing_of three_entries) tt three_entries);
    vm_compute; reflexivity.
Defined.

(** C3. If the fetch of the listing page fails, [scrape_pokemon] raises
    that very exception after a single request, the listing request: no
    detail document is asked for and [rows] is still empty.  [main]
    (which asks for 150 entries from offset 0) raises it too, having
    printed nothing and written no file. *)
Theorem C3_listing_failure_is_fatal
    {World} (net : network World) (limit offset : Z) (s : state)
    (e : exn) (w1 : World) :
  fetch_result net (JStr POKEMON_ENDPOINT) (listing_query limit offset) (st_world s)
    = (Raise e, w1) →
  let aborted := ([EvGet (JStr POKEMON_ENDPOINT) (listing_query limit offset)],
                  {| st_world := w1; st_rows := [] |}) in
  scrape_pokemon net limit offset s = (Raise e, aborted.1, aborted.2)
  ∧ List.filter is_detail_get aborted.1 = []
  ∧ (limit = 150%Z → offset = 0%Z →
     main net s = (Raise e, aborted.1, aborted.2)
     ∧ List.filter is_to_csv aborted.1 = []
     ∧ printed aborted.1 = []).
Proof.
  intros Hf aborted.
  assert (scrape_pokemon net limit offset s = (Raise e, aborted.1, aborted.2)) as Hs.
  { unfold scrape_pokemon. rewrite bind_run. cbn [rows_new].
    rewrite bind_run, fetch_json_run. cbn [st_world st_rows].
    fold (listing_query limit offset). rewrite Hf. reflexivity. }
  split; [exact Hs|]. split; [reflexivity|].
  intros -> ->. split; [|done].
  unfold main. rewrite bind_run, Hs. reflexivity.
Qed.

Lemma C3_witness :
  scrape_pokemon (serve net_down) 150 0 start
    = (Raise (HTTPError 503),
       [EvGet (JStr POKEMON_ENDPOINT) (listing_query 150 0)], start)
  ∧ main (serve net_down) start
    = (Raise (HTTPError 503),
       [EvGet (JStr POKEMON_ENDPOINT) (listing_query 150 0)], start).
Proof.
  destruct (C3_listing_failure_is_fatal (serve net_down) 150 0 start
              (HTTPError 503) tt) as (Hs & _ & Hm).
  - vm_compute; reflexivity.
  - split; [exact Hs|]. destruct Hm as [Hm _]; [reflexivity..|exact Hm].
Defined.

(** C9. If the listing fetch succeeds with an object that has no
    [results] key, [scrape_pokemon] does not raise: after the listing
    request it sends no other request and returns the frame of no
    row. *)
Theorem C9_missing_results_is_an_empty_page
    {World} (net : network World) (limit offset : Z) (s : state)
    (m : gmap string json) (w1 : World) :
  fetch_result net (JStr POKEMON_ENDPOINT) (listing_query limit offset) (st_world s)
    = (Return (JObj m), w1) →
  m !! "results" = None →
  scrape_pokemon net limit offset s
  = (Return (pd_DataFrame []),
     [EvGet (JStr POKEMON_ENDPOINT) (listing_query limit offset)],
     {| st_world := w1; st_rows := [] |})
  ∧ df_len (pd_DataFrame []) = 0.
Proof.
  intros Hf Hr. split; [|reflexivity].
  unfold scrape_pokemon. rewrite bind_run. cbn [rows_new].
  rewrite bind_run, fetch_json_run. cbn [st_world st_rows].
  fold (listing_query limit offset). rewrite Hf. cbn [fst snd dict_get].
  rewrite Hr. reflexivity.
Qed.

Lemma C9_witness :
  scrape_pokemon (serve net_no_results) 150 0 start
  = (Return (pd_DataFrame []),
     [EvGet (JStr POKEMON_ENDPOINT) (listing_query 150 0)], start)
  ∧ df_len (pd_DataFrame []) = 0.
Proof.
  apply (C9_missing_results_is_an_empty_page (serve net_no_results) 150 0 start
           {[ "count" := JInt 0 ]} tt); vm_compute; reflexivity.
Defined.




(** Whatever the page holds, the events of the loop are paced: the loop
    stops at an entry that is not an object before asking for it. *)
Lemma for_each_paced {World} (net : network World) items (s : state) :
  paced true (for_each items (scrape_entry net) s).1.2 = true
  ∧ rested_after true (for_each items (scrape_entry net) s).1.2 = true.
Proof.
  revert s. induction items as [|p items IH]; intros s; [done|].
  cbn [for_each]. rewrite bind_run.
  destruct (is_dict p) eqn:Hd.
  - destruct p as [| | | | |m]; try discriminate.
    rewrite scrape_entry_run. cbv zeta.
    match goal with |- context [for_each items _ ?s1] =>
      specialize (IH s1); destruct (for_each items (scrape_entry net) s1)
        as [[r evs] s2] end.
    cbn [fst snd] in *. destruct IH as [IH1 IH2].
    match goal with |- context [entry_events ?po] =>
      destruct (entry_events_paced po) as [H1 H2] end.
    by rewrite paced_app, rested_after_app, H1, H2.
  - by rewrite scrape_entry_not_dict.
Qed.

(** Every run of [scrape_pokemon], completed or not, begins with the
    listing request and is paced from there on. *)
Lemma scrape_always_paced {World} (net : network World) limit offset (s : state) :
  ∃ rest,
    (scrape_pokemon net limit offset s).1.2
      = EvGet (JStr POKEMON_ENDPOINT) (listing_query limit offset) :: rest
    ∧ paced true rest = true.
Proof.
  unfold scrape_pokemon. rewrite bind_run. cbn [rows_new].
  rewrite bind_run, fetch_json_run. cbn [st_world st_rows].
  fold (listing_query limit offset).
  destruct (fetch_result net _ _ (st_world s)) as [[listing|e] w1];
    cbn [fst snd]; [|by eexists].
  rewrite lift_bind_run.
  destruct (dict_get listing "results" (JList [])) as [results|e]; [|by eexists].
  rewrite lift_bind_run.
  destruct (py_iter results) as [items|e]; [|by eexists].
  rewrite bind_run.
  match goal with |- context [for_each items _ ?s1] =>
    destruct (for_each_paced net items s1) as [H1 H2];
    destruct (for_each items (scrape_entry net) s1) as [[[[]|e] evs] s2] end;
    cbn [fst snd] in *.
  - eexists. split; [reflexivity|]. cbn [app]. by rewrite app_nil_r.
  - by eexists.
Qed.

(** C8. On a listing page of objects, the trace of [scrape_pokemon] is
    the listing request followed, for each entry in turn, by the request
    for its detail document, the error message if the entry failed, and a
    pause of 0.2: one pause per entry, whether the entry succeeded or
    failed, so that a pause of 0.2 separates any two detail requests. *)
Theorem C8_fixed_pause_after_every_entry
    {World} (net : network World) (limit offset : Z) (s : state)
    (listing : json) (w1 : World) (items : list json) :
  fetch_result net (JStr POKEMON_ENDPOINT) (listing_query limit offset) (st_world s)
    = (Return listing, w1) →
  page_entries listing = Some items →
  ∃ df evs s',
    scrape_pokemon net limit offset s = (Return df, evs, s')
    ∧ evs = EvGet (JStr POKEMON_ENDPOINT) (listing_query limit offset)
              :: concat (entry_events <$> entry_fetches net items w1)
    ∧ Forall (λ po, ∃ log, entry_events po
                           = EvGet (entry_url po.1) None :: log ++ [EvSleep PACING])
             (entry_fetches net items w1)
    ∧ List.filter is_sleep evs = replicate (length items) (EvSleep PACING)
    ∧ length (List.filter is_detail_get evs) = length items
    ∧ paced true (tail evs) = true
    ∧ (PACING == 0.2)%Q.
Proof.
  intros Hf Hp. eexists _, _, _. split; [by eapply scrape_run|].
  split; [reflexivity|]. split; [|split; [|split; [|split]]].
  - apply Forall_forall. intros po _. by eexists.
  - cbn [List.filter is_sleep]. rewrite sleeps_loop_trace.
    rewrite <- (entry_fetches_length net items w1).
    induction (entry_fetches net items w1); cbn; by f_equal.
  - cbn [List.filter is_detail_get]. fold (listing_query limit offset).
    unfold listing_query at 1. cbn [List.filter is_detail_get].
    by rewrite detail_gets_loop_trace, length_fmap, entry_fetches_length.
  - cbn [tail]. apply loop_trace_paced.
  - reflexivity.
Qed.

Lemma C8_witness :
  ∃ df s',
    scrape_pokemon (serve net_timeout) 3 0 start
    = (Return df,
       [ EvGet (JStr POKEMON_ENDPOINT) (listing_query 3 0);
         EvGet (JStr "u/1") None; EvSleep PACING;
         EvGet (JStr "u/2") None;
         EvPrint (MsgError (JStr "ivysaur") (RequestException "ReadTimeout"));
         EvSleep PACING;
         EvGet (JStr "u/3") None; EvSleep PACING ],
       s').
Proof.
  destruct (C8_fixed_pause_after_every_entry (serve net_timeout) 3 0 start
              (listing_of three_entries) tt three_entries)
    as (df & evs & s' & Hrun & -> & _).
  - vm_compute; reflexivity.
  - vm_compute; reflexivity.
  - exists df, s'. exact Hrun.
Defined.

(* ================================================================= *)
(** * Properties of the summary *)

Lemma rint_comp q q' : (q == q')%Q → rint q = rint q'.
Proof.
  intros H. unfold rint. rewrite (Qfloor_comp _ _ H).
  replace (Qcompare (q - inject_Z (Qfloor q')) (1 # 2))
    with (Qcompare (q' - inject_Z (Qfloor q')) (1 # 2)); [reflexivity|].
  apply Qcompare_comp; [|reflexivity]. rewrite H. reflexivity.
Qed.



Lemma py_round_2 q : ∃ r, py_round (Finite q) 2 = Finite r ∧ (r == round2 q)%Q.
Proof.
  eexists. split; [reflexivity|]. rewrite Qred_correct. reflexivity.
Qed.

Lemma base_experience_column rows :
  rows ≠ [] →
  df_getitem (pd_DataFrame rows) "base_experience" = Return (base_experiences rows).
Proof.
  destruct rows as [|r rows]; [done|]. intros _.
  unfold df_getitem. cbn [pd_DataFrame df_columns df_rows].
  replace (existsb _ _) with true by reflexivity.
  reflexivity.
Qed.

Lemma int_cells_dropna cells vals :
  int_cells cells = Some vals →
  mapM numeric (dropna cells) = Return vals
  ∧ length (dropna cells) = length vals.
Proof.
  revert vals. induction cells as [|c cells IH]; intros vals H.
  - injection H as <-. done.
  - destruct c; try discriminate; cbn [int_cells] in H.
    + apply IH, H.
    + destruct (int_cells cells) as [vs|]; [|discriminate].
      injection H as <-. destruct (IH vs eq_refl) as [IH1 IH2].
      cbn [dropna List.filter isna negb mapM numeric] in *.
      fold (dropna cells). rewrite IH1. cbn. by rewrite IH2.
Qed.

(** The value of line 94 on a frame whose [base_experience] column holds
    integers and nulls, at least one integer. *)
Lemma average_run rows vals :
  int_cells (base_experiences rows) = Some vals →
  vals ≠ [] →
  ∃ q, average_base_experience (pd_DataFrame rows) = Return (Finite q)
       ∧ (q == round2 (mean vals))%Q.
Proof.
  intros Hc Hv.
  assert (rows ≠ []) as Hr by (intros ->; injection Hc as <-; done).
  unfold average_base_experience. rewrite (base_experience_column _ Hr).
  cbn [mbind outcome_bind].
  destruct (int_cells_dropna _ _ Hc) as [Hm Hl].
  unfold series_mean.
  destruct (dropna (base_experiences rows)) as [|c cs] eqn:Hd.
  { destruct vals; [done|discriminate]. }
  rewrite Hm. cbn [mbind outcome_bind mret outcome_ret].
  eexists. split; [reflexivity|].
  rewrite Qred_correct. unfold round2, mean.
  change (inject_Z (10 ^ Z.of_nat 2)) with 100%Q.
  rewrite (rint_comp (Qred (sum_Z vals # Pos.of_nat (length vals)) * 100)
                     ((sum_Z vals # Pos.of_nat (length vals)) * 100)).
  - reflexivity.
  - rewrite Qred_correct. reflexivity.
Qed.

Lemma emit_bind_run {World B} (ev : event) (f : unit → M B)
    (s : state (World := World)) :
  (emit ev ≫= f) s =
  match f tt s with
  | (r, evs, s') => (r, ev :: evs, s')
  end.
Proof. reflexivity. Qed.

(** A run of [main] that gets its page and can average the rows: the
    trace of the collector, then the summary and the file. *)
Lemma main_run {World} (net : network World) (s : state) listing w1 items avg :
  fetch_result net (JStr POKEMON_ENDPOINT) (listing_query 150 0) (st_world s)
    = (Return listing, w1) →
  page_entries listing = Some items →
  let df := pd_DataFrame (rows_of (entry_fetches net items w1)) in
  average_base_experience df = Return avg →
  main net s =
  (Return tt,
   (EvGet (JStr POKEMON_ENDPOINT) (listing_query 150 0)
      :: loop_trace (entry_fetches net items w1))
   ++ [ EvPrint (MsgText "Data Preview:");
        EvPrint (MsgFrame (df_head 15 df));
        EvPrint (MsgTotal (df_len df));
        EvPrint (MsgAverage avg);
        EvToCsv output_file df;
        EvPrint (MsgSaved (df_len df) output_file) ],
   {| st_world := world_after net items w1;
      st_rows := rows_of (entry_fetches net items w1) |}).
Proof.
  intros Hf Hp df Havg. unfold main. cbv zeta.
  rewrite bind_run, (scrape_run net _ _ _ _ _ _ Hf Hp). fold df.
  unfold print, to_csv.
  rewrite !emit_bind_run, lift_bind_run, Havg, !emit_bind_run. reflexivity.
Qed.


(** A frame built from no row has no [base_experience] column: line 94
    raises [KeyError] instead of reporting an undefined average. *)
Lemma average_of_no_row_raises :
  average_base_experience (pd_DataFrame []) = Raise (KeyError "base_experience").
Proof. reflexivity. Qed.





(* ================================================================= *)
(** * The exported file read back *)
















(** ** Splitting a joined field *)







(** No way of splitting gives back every sequence: the empty sequence
    and the sequence of one empty name are joined to the same string. *)
Lemma join_not_injective :
  String.concat SEP [] = String.concat SEP [""]
  ∧ ¬ ∃ split : string → list string,
        ∀ names, split (String.concat SEP names) = names.
Proof.
  split; [reflexivity|]. intros [split H].
  pose proof (H []) as H0. pose proof (H [""]) as H1.
  cbn in H0, H1. congruence.
Qed.

(** A name that contains the separator is cut in two. *)
Lemma split_cuts_name_with_separator :
  py_split SEP (String.concat SEP ["mr, mime"]) = ["mr"; "mime"].
Proof. reflexivity. Qed.

(** ** Valid detail documents, flattened and exported *)

Lemma names_extracted inner (l : list json) (names : list string) :
  mapM (name_of inner) l = Some names →
  mapM (M := outcome) (λ x, y ← subscript x inner; subscript y "name") l
  = Return (JStr <$> names).
Proof.
  revert names. induction l as [|x l IH]; intros names H.
  - injection H as <-. reflexivity.
  - cbn [mapM] in H |- *.
    destruct (name_of inner x) as [n|] eqn:Hn; [|discriminate].
    destruct (mapM (name_of inner) l) as [ns|]; [|discriminate].
    injection H as <-. rewrite (IH ns eq_refl).
    unfold name_of in Hn.
    destruct x as [| | | | |m]; try discriminate. cbn [subscript].
    destruct (m !! inner) as [[| | | | |m']|]; try discriminate.
    cbn [mbind outcome_bind subscript].
    destruct (m' !! "name") as [[| | |s| |]|]; try discriminate.
    by injection Hn as ->.
Qed.

Lemma join_names sep (names : list string) :
  str_join sep (JStr <$> names) = Return (String.concat sep names).
Proof.
  unfold str_join.
  replace (mapM as_str (JStr <$> names)) with (Return names); [reflexivity|].
  induction names as [|n names IH]; [reflexivity|].
  cbn [fmap list_fmap mapM as_str mbind outcome_bind].
  change (list_fmap string json JStr names) with (JStr <$> names).
  by rewrite <- IH.
Qed.

Lemma names_joined inner v names :
  names_in inner v = Some names →
  joined_names (Some v) inner = Return (String.concat SEP names).
Proof.
  destruct v as [| | | |l|]; try discriminate. cbn [names_in]. intros H.
  unfold joined_names. cbn [from_option id py_iter mbind outcome_bind].
  rewrite (names_extracted _ _ _ H). cbn [mbind outcome_bind].
  apply join_names.
Qed.

(** The flattener gives a valid detail document the row the data model
    expects. *)
Lemma parse_valid d D :
  read_detail d = Some D → parse_pokemon_details d = Return (detail_row D).
Proof.
  destruct d as [| | | | |m]; try discriminate. cbn [read_detail].
  unfold int_field, str_field, opt_int_field.
  destruct (m !! "id") as [[| |i| | |]|] eqn:Hid; try discriminate.
  destruct (m !! "name") as [[| | |n| |]|] eqn:Hname; try discriminate.
  destruct (m !! "height") as [[| |h| | |]|] eqn:Hh; try discriminate.
  destruct (m !! "weight") as [[| |w| | |]|] eqn:Hw; try discriminate.
  destruct (m !! "base_experience") as [[| |z| | |]|] eqn:Hbe;
    cbn [mbind option_bind]; try discriminate.
  all: destruct (m !! "types") as [vt|] eqn:Ht; [|discriminate].
  all: cbn [mbind option_bind].
  all: destruct (names_in "type" vt) as [ts|] eqn:Hts; [|discriminate].
  all: cbn [mbind option_bind].
  all: destruct (m !! "abilities") as [va|] eqn:Ha; [|discriminate].
  all: cbn [mbind option_bind].
  all: destruct (names_in "ability" va) as [abs|] eqn:Habs; [|discriminate].
  all: cbn [mbind option_bind]; intros [= <-].
  all: rewrite (parse_dict m (String.concat SEP ts) (String.concat SEP abs));
    [ unfold detail_row;
      cbn [d_id d_name d_height d_weight d_base_experience d_types d_abilities];
      by rewrite Hid, Hname, Hh, Hw, Hbe
    | rewrite Ht; by apply names_joined
    | rewrite Ha; by apply names_joined ].
Qed.






Lemma valid_detail_read d :
  valid_detail d = true ↔ ∃ D, read_detail d = Some D.
Proof.
  unfold valid_detail. rewrite bool_decide_eq_true. reflexivity.
Qed.

(** Next to a row whose [id], [height] or [weight] is missing, pandas
    turns the column into floats, and the integers of a valid document
    are no longer exported in decimal. *)
Lemma invalid_neighbour_exports_floats :
  ∃ r1 r2 header line1 line2,
    parse_pokemon_details bulbasaur = Return r1
    ∧ parse_pokemon_details anonymous = Return r2
    ∧ csv_read (to_csv_text small_float_repr no_str (pd_DataFrame [r1; r2]))
      = [header; line1; line2]
    ∧ line1 !! 0 = Some "1.0"
    ∧ Z_of_string "1.0" = None.
Proof.
  eexists _, _, _, _, _.
  split; [vm_compute; reflexivity|].
  split; [vm_compute; reflexivity|].
  split; [vm_compute; reflexivity|].
  split; reflexivity.
Qed.




(* ================================================================= *)
(** * Further properties of [fetch_json] *)

(** X1. A call of [fetch_json] returns a document exactly when
    [requests.get] returned a response, the status of the response is
    not in 400..599, and the body of the response is that document; the
    call has then sent one request and left [rows] alone. *)
Theorem X1_fetch_json_returns_iff
    {World} (net : network World) (url : json) (params : option query)
    (s s' : state) (j : json) (evs : list event) :
  fetch_json net url params s = (Return j, evs, s')
  ↔ ∃ resp,
      net url USER_AGENT params TIMEOUT (st_world s) = (Return resp, st_world s')
      ∧ ¬ error_status (status_code resp)
      ∧ json_body resp = Return j
      ∧ evs = [EvGet url params]
      ∧ st_rows s' = st_rows s.
Proof.
  rewrite fetch_json_run. unfold fetch_result, USER_AGENT, TIMEOUT, error_status.
  destruct (net url _ params 20%Z (st_world s)) as [[resp|e] w'] eqn:Hn;
    cbn [fst snd].
  - unfold raise_for_status.
    destruct ((400 <=? status_code resp)%Z && (status_code resp <? 600)%Z)
      eqn:Hst; cbn [mbind outcome_bind].
    + split; [discriminate|]. intros (resp' & [= <- _] & Hok & _).
      apply andb_prop in Hst as [H1 H2]. lia.
    + apply andb_false_iff in Hst. split.
      * intros [= Hj <- <-]. exists resp. cbn [st_world st_rows].
        repeat split; try done. lia.
      * intros (resp' & [= <- Hw] & _ & Hj & -> & Hr).
        rewrite Hj. destruct s'. cbn in *. by subst.
  - split; [discriminate|]. by intros (resp' & [= ] & _).
Qed.

Lemma X1_witness :
  fetch_json (serve net_ok) (JStr "u/1") None start
  = (Return bulbasaur, [EvGet (JStr "u/1") None], start).
Proof.
  apply (X1_fetch_json_returns_iff (serve net_ok)).
  exists {| status_code := 200; json_body := Return bulbasaur |}.
  repeat split; try reflexivity. unfold error_status. cbn. lia.
Defined.

(** X2. A response whose status is in 400..599 makes [fetch_json] raise
    [HTTPError] with that status, whatever its body holds: an error page
    is never handed on as data, even when it is valid JSON. *)
Theorem X2_error_status_raises
    {World} (net : network World) (url : json) (params : option query)
    (s : state) (resp : Response) (w' : World) :
  net url USER_AGENT params TIMEOUT (st_world s) = (Return resp, w') →
  error_status (status_code resp) →
  fetch_json net url params s
  = (Raise (HTTPError (status_code resp)),
     [EvGet url params],
     {| st_world := w'; st_rows := st_rows s |}).
Proof.
  intros Hn [H1 H2]. rewrite fetch_json_run. unfold fetch_result.
  change (net url [("User-Agent", "CMCC-API-Assignment/1.0")] params 20%Z (st_world s))
    with (net url USER_AGENT params TIMEOUT (st_world s)).
  rewrite Hn. cbn [fst snd]. unfold raise_for_status.
  replace ((400 <=? status_code resp)%Z && (status_code resp <? 600)%Z) with true.
  - reflexivity.
  - symmetry. apply andb_true_intro. split; lia.
Qed.

Lemma X2_witness :
  fetch_json (serve net_error_page) (JStr "u/1") None start
  = (Raise (HTTPError 404), [EvGet (JStr "u/1") None], start).
Proof.
  apply (X2_error_status_raises (serve net_error_page) (JStr "u/1") None start
           {| status_code := 404;
              json_body := Return (JObj {[ "detail" := JStr "Not found." ]}) |} tt).
  - reflexivity.
  - unfold error_status. cbn. lia.
Defined.

(* ================================================================= *)
(** * Further properties of [parse_pokemon_details] *)







(** X4. The flattener reads seven keys of the document and no other:
    two documents that agree on [types], [abilities], [id], [name],
    [height], [weight] and [base_experience] are flattened alike. *)
Theorem X4_flatten_reads_seven_keys (m m' : gmap string json) :
  (∀ key, key ∈ FLATTEN_KEYS → m !! key = m' !! key) →
  parse_pokemon_details (JObj m) = parse_pokemon_details (JObj m').
Proof.
  intros H. unfold parse_pokemon_details. rewrite !nested_names_dict.
  cbn [dict_get].
  rewrite (H "types"), (H "abilities"), (H "id"), (H "name"), (H "height"),
    (H "weight"), (H "base_experience") by (unfold FLATTEN_KEYS; set_solver).
  reflexivity.
Qed.

Lemma X4_witness :
  parse_pokemon_details (JObj (<["order" := JInt 5]> {[ "name" := JStr "x" ]}))
  = parse_pokemon_details (JObj {[ "name" := JStr "x" ]}).
Proof.
  apply X4_flatten_reads_seven_keys. intros key Hk.
  apply lookup_insert_ne. intros <-. vm_compute in Hk.
  repeat (apply elem_of_cons in Hk as [Hk|Hk]; [discriminate|]).
  by apply elem_of_nil in Hk.
Defined.



(** X6. An entry of [types] that is an object without a [type] key makes
    the flattener raise [KeyError] for [type], when the entries before it
    are well formed; what follows it is not looked at. *)
Theorem X6_missing_type_key_raises
    (m mx : gmap string json) (good rest : list json) (names : list string) :
  m !! "types" = Some (JList (good ++ JObj mx :: rest)) →
  mapM (name_of "type") good = Some names →
  mx !! "type" = None →
  parse_pokemon_details (JObj m) = Raise (KeyError "type").
Proof.
  intros Ht Hgood Hx. unfold parse_pokemon_details.
  rewrite !nested_names_dict, Ht. cbn [from_option id py_iter mbind outcome_bind].
  replace (mapM (M := outcome) (λ x, y ← subscript x "type"; subscript y "name")
             (good ++ JObj mx :: rest))
    with (@Raise (list json) (KeyError "type")); [reflexivity|].
  clear Ht. revert names Hgood. induction good as [|g good IH]; intros names Hgood.
  - cbn [app mapM subscript]. by rewrite Hx.
  - cbn [mapM] in Hgood.
    destruct (name_of "type" g) as [n|] eqn:Hn; [|discriminate].
    destruct (mapM (name_of "type") good) as [ns|] eqn:Hns; [|discriminate].
    pose proof (names_extracted "type" [g] [n]) as Hg. cbn [mapM] in Hg.
    rewrite Hn in Hg. specialize (Hg eq_refl).
    cbn [app mapM].
    destruct (subscript g "type" ≫= λ y, subscript y "name") as [y|e];
      [|discriminate].
    cbn [mbind outcome_bind]. by rewrite <- (IH ns eq_refl).
Qed.

Lemma X6_witness :
  parse_pokemon_details
    (JObj {[ "types" := JList [named "type" "grass"; JObj {[ "slot" := JInt 2 ]}] ]})
  = Raise (KeyError "type").
Proof.
  apply (X6_missing_type_key_raises
           {[ "types" := JList [named "type" "grass"; JObj {[ "slot" := JInt 2 ]}] ]}
           {[ "slot" := JInt 2 ]} [named "type" "grass"] [] ["grass"]);
    reflexivity.
Defined.

(** X7. A valid detail document is flattened into the row of its
    content: the five scalars as they are ([None] for an absent or null
    [base_experience]) and the names of its types and of its abilities
    joined with ", " in the order of the document. *)
Theorem X7_flatten_valid_document (d : json) (D : Detail) :
  read_detail d = Some D →
  ∃ r, parse_pokemon_details d = Return r
       ∧ row_id r = JInt (d_id D)
       ∧ row_name r = JStr (d_name D)
       ∧ row_height_dm r = JInt (d_height D)
       ∧ row_weight_hg r = JInt (d_weight D)
       ∧ row_base_experience r = from_option JInt JNull (d_base_experience D)
       ∧ row_types r = String.concat ", " (d_types D)
       ∧ row_abilities r = String.concat ", " (d_abilities D).
Proof.
  intros H. exists (detail_row D). split; [by apply parse_valid|done].
Qed.

Lemma X7_witness :
  ∃ r, parse_pokemon_details bulbasaur = Return r
       ∧ row_types r = "grass, poison"
       ∧ row_abilities r = "overgrow, chlorophyll".
Proof.
  destruct (X7_flatten_valid_document bulbasaur
              {| d_id := 1; d_name := "bulbasaur"; d_height := 7; d_weight := 69;
                 d_base_experience := Some 64%Z;
                 d_types := ["grass"; "poison"];
                 d_abilities := ["overgrow"; "chlorophyll"] |})
    as (r & Hr & _ & _ & _ & _ & _ & Ht & Ha).
  - vm_compute; reflexivity.
  - exists r. repeat split; assumption.
Defined.

(* ================================================================= *)
(** * Further properties of [scrape_pokemon] *)

(** The loop up to an entry that is not an object: it stops there with
    [AttributeError], having handled the entries before it. *)
Lemma for_each_abort {World} (net : network World) pre bad post (s : state) :
  forallb is_dict pre = true →
  is_dict bad = false →
  for_each (pre ++ bad :: post) (scrape_entry net) s =
  (Raise AttributeError,
   loop_trace (entry_fetches net pre (st_world s)),
   {| st_world := world_after net pre (st_world s);
      st_rows := st_rows s ++ rows_of (entry_fetches net pre (st_world s)) |}).
Proof.
  intros Hpre Hbad. revert s. induction pre as [|p pre IH]; intros s.
  - cbn [app for_each]. rewrite bind_run, (scrape_entry_not_dict _ _ _ Hbad).
    cbn. rewrite app_nil_r. by destruct s.
  - cbn [forallb] in Hpre. apply andb_prop in Hpre as [Hp Hpre].
    destruct p as [| | | | |m]; try discriminate.
    cbn [app for_each]. rewrite bind_run, scrape_entry_run. cbv zeta.
    rewrite (IH Hpre). cbn [st_world st_rows entry_fetches world_after].
    destruct (fetch_result net (entry_url (JObj m)) None (st_world s)) as [o w'].
    cbn [fst snd]. unfold loop_trace, rows_of.
    cbn [fmap list_fmap concat omap list_omap].
    rewrite <- app_assoc. by destruct (row_of (JObj m, o)).
Qed.

Lemma first_non_dict (items : list json) :
  forallb is_dict items = true
  ∨ ∃ pre bad post,
      items = pre ++ bad :: post ∧ forallb is_dict pre = true ∧ is_dict bad = false.
Proof.
  induction items as [|p items [IH|(pre & bad & post & -> & Hpre & Hbad)]].
  - by left.
  - destruct (is_dict p) eqn:Hp.
    + left. cbn. by rewrite Hp.
    + right. by exists [], p, items.
  - destruct (is_dict p) eqn:Hp.
    + right. exists (p :: pre), bad, post. cbn. by rewrite Hp.
    + right. by exists [], p, (pre ++ bad :: post).
Qed.

(** After the listing has been fetched, a run goes on with the loop. *)
Lemma scrape_after_listing {World} (net : network World) limit offset
    (s : state) listing w1 :
  fetch_result net (JStr POKEMON_ENDPOINT) (listing_query limit offset) (st_world s)
    = (Return listing, w1) →
  scrape_pokemon net limit offset s =
  match (results ← lift (dict_get listing "results" (JList []));
         items ← lift (py_iter results);
         for_each items (scrape_entry net);;
         rows ← rows_read;
         mret (pd_DataFrame rows)) {| st_world := w1; st_rows := [] |} with
  | (r, evs, s') =>
      (r, EvGet (JStr POKEMON_ENDPOINT) (listing_query limit offset) :: evs, s')
  end.
Proof.
  intros Hf. unfold scrape_pokemon. rewrite bind_run. cbn [rows_new].
  rewrite bind_run, fetch_json_run. cbn [st_world st_rows].
  fold (listing_query limit offset). rewrite Hf. cbn [fst snd].
  match goal with |- context [mbind ?f ?m ?st] =>
    destruct (mbind f m st) as [[r evs] s'] end.
  reflexivity.
Qed.

(** X8. A listing that is fetched but is not what the loop expects stops
    the run before any detail request: a listing that is not a dict
    raises [AttributeError], a [results] that holds [None], a number or a
    boolean raises [TypeError].  Neither is caught. *)
Theorem X8_malformed_listing_is_fatal
    {World} (net : network World) (limit offset : Z) (s : state)
    (listing : json) (w1 : World) :
  fetch_result net (JStr POKEMON_ENDPOINT) (listing_query limit offset) (st_world s)
    = (Return listing, w1) →
  let aborted e :=
    (@Raise DataFrame e,
     [EvGet (JStr POKEMON_ENDPOINT) (listing_query limit offset)],
     {| st_world := w1; st_rows := [] |}) in
  (is_dict listing = false →
   scrape_pokemon net limit offset s = aborted AttributeError)
  ∧ (∀ m v, listing = JObj m → m !! "results" = Some v → not_iterable v →
     scrape_pokemon net limit offset s = aborted TypeError).
Proof.
  intros Hf aborted. rewrite (scrape_after_listing _ _ _ _ _ _ Hf).
  unfold aborted. split.
  - intros Hd. rewrite lift_bind_run. by destruct listing.
  - intros m v -> Hr Hv. rewrite lift_bind_run. cbn [dict_get]. rewrite Hr.
    cbn [from_option id]. rewrite lift_bind_run. by destruct v.
Qed.

Lemma X8_witness :
  scrape_pokemon (serve net_array_listing) 150 0 start
  = (Raise AttributeError, [EvGet (JStr POKEMON_ENDPOINT) (listing_query 150 0)], start)
  ∧ scrape_pokemon (serve net_null_results) 150 0 start
    = (Raise TypeError, [EvGet (JStr POKEMON_ENDPOINT) (listing_query 150 0)], start).
Proof.
  split.
  - destruct (X8_malformed_listing_is_fatal (serve net_array_listing) 150 0 start
                (JList [entry "bulbasaur" "u/1"]) tt) as [H _]; [reflexivity|].
    apply H. reflexivity.
  - destruct (X8_malformed_listing_is_fatal (serve net_null_results) 150 0 start
                (JObj {[ "results" := JNull ]}) tt) as [_ H]; [reflexivity|].
    apply (H {[ "results" := JNull ]} JNull); [reflexivity..|exact I].
Defined.

(** X9. The isolation of failures covers the [try] block only.  An
    entry of the page that is not an object makes [scrape_pokemon] raise
    [AttributeError]: the entries before it have been handled, the
    entries after it are never asked for, and the rows collected so far
    are not returned. *)
Theorem X9_entry_that_is_no_object_aborts
    {World} (net : network World) (limit offset : Z) (s : state)
    (m : gmap string json) (w1 : World) (pre post : list json) (bad : json) :
  fetch_result net (JStr POKEMON_ENDPOINT) (listing_query limit offset) (st_world s)
    = (Return (JObj m), w1) →
  m !! "results" = Some (JList (pre ++ bad :: post)) →
  forallb is_dict pre = true →
  is_dict bad = false →
  ∃ evs,
    scrape_pokemon net limit offset s
    = (Raise AttributeError, evs,
       {| st_world := world_after net pre w1;
          st_rows := rows_of (entry_fetches net pre w1) |})
    ∧ List.filter is_detail_get evs = (λ p, EvGet (entry_url p) None) <$> pre
    ∧ error_messages evs = faults_of (entry_fetches net pre w1).
Proof.
  intros Hf Hr Hpre Hbad. eexists.
  rewrite (scrape_after_listing _ _ _ _ _ _ Hf).
  rewrite lift_bind_run. cbn [dict_get]. rewrite Hr. cbn [from_option id].
  rewrite lift_bind_run. cbn [py_iter].
  rewrite bind_run, (for_each_abort _ _ _ _ _ Hpre Hbad).
  cbn [st_world st_rows app]. split; [reflexivity|]. split.
  - unfold listing_query at 1. cbn [List.filter is_detail_get].
    rewrite detail_gets_loop_trace.
    rewrite <- (entry_fetches_entries net pre w1) at 2.
    by rewrite <- list_fmap_compose.
  - apply error_messages_loop_trace.
Qed.

Lemma X9_witness :
  ∃ evs,
    scrape_pokemon (serve net_bad_entry) 3 0 start
    = (Raise AttributeError, evs,
       {| st_world := tt;
          st_rows := rows_of [(entry "bulbasaur" "u/1", Return bulbasaur)] |})
    ∧ List.filter is_detail_get evs = [EvGet (JStr "u/1") None].
Proof.
  destruct (X9_entry_that_is_no_object_aborts (serve net_bad_entry) 3 0 start
              {[ "count" := JInt 1302;
                 "results" := JList [entry "bulbasaur" "u/1"; JStr "ivysaur";
                                     entry "venusaur" "u/3"] ]}
              tt [entry "bulbasaur" "u/1"] [entry "venusaur" "u/3"] (JStr "ivysaur"))
    as (evs & Hrun & Hgets & _); [reflexivity..|].
  exists evs. split; [exact Hrun|exact Hgets].
Defined.

(** X10. No retry and no skipping.  On a page of objects the detail
    requests of a run are the [url] values of the entries, in listing
    order, one request per entry, whether the entry succeeded or failed;
    an entry without [url] is asked for with [None]. *)
Theorem X10_one_detail_request_per_entry
    {World} (net : network World) (limit offset : Z) (s : state)
    (listing : json) (w1 : World) (items : list json) :
  fetch_result net (JStr POKEMON_ENDPOINT) (listing_query limit offset) (st_world s)
    = (Return listing, w1) →
  page_entries listing = Some items →
  ∃ df evs s',
    scrape_pokemon net limit offset s = (Return df, evs, s')
    ∧ List.filter is_detail_get evs = (λ p, EvGet (entry_url p) None) <$> items
    ∧ (∀ m, JObj m ∈ items → m !! "url" = None →
       EvGet JNull None ∈ List.filter is_detail_get evs).
Proof.
  intros Hf Hp. eexists _, _, _. split; [by eapply scrape_run|].
  assert (List.filter is_detail_get
            (EvGet (JStr POKEMON_ENDPOINT) (listing_query limit offset)
               :: loop_trace (entry_fetches net items w1))
          = (λ p, EvGet (entry_url p) None) <$> items) as Hgets.
  { unfold listing_query at 1. cbn [List.filter is_detail_get].
    rewrite detail_gets_loop_trace.
    rewrite <- (entry_fetches_entries net items w1) at 2.
    by rewrite <- list_fmap_compose. }
  split; [exact Hgets|].
  intros m Hin Hurl. rewrite Hgets. apply list_elem_of_fmap.
  exists (JObj m). split; [|done]. cbn [entry_url]. by rewrite Hurl.
Qed.

Lemma X10_witness :
  ∃ df evs s',
    scrape_pokemon (serve net_timeout) 3 0 start = (Return df, evs, s')
    ∧ List.filter is_detail_get evs
      = [EvGet (JStr "u/1") None; EvGet (JStr "u/2") None; EvGet (JStr "u/3") None].
Proof.
  destruct (X10_one_detail_request_per_entry (serve net_timeout) 3 0 start
              (listing_of three_entries) tt three_entries)
    as (df & evs & s' & Hrun & Hgets & _); [reflexivity..|].
  exists df, evs, s'. split; [exact Hrun|exact Hgets].
Defined.

Lemma loop_trace_collector fetched :
  forallb collector_event (loop_trace fetched) = true.
Proof.
  unfold loop_trace. induction fetched as [|po fetched IH]; [done|].
  cbn [fmap list_fmap concat]. rewrite forallb_app, IH, andb_true_r.
  unfold entry_events. cbn [forallb collector_event].
  rewrite forallb_app. cbn [forallb collector_event].
  destruct (row_or_fault po) as [(r & _ & ->)|(e & _ & ->)]; reflexivity.
Qed.

Lemma for_each_collector {World} (net : network World) items (s : state) :
  forallb collector_event (for_each items (scrape_entry net) s).1.2 = true.
Proof.
  destruct (first_non_dict items) as [Hd|(pre & bad & post & -> & Hpre & Hbad)].
  - rewrite (for_each_run _ _ _ Hd). apply loop_trace_collector.
  - rewrite (for_each_abort _ _ _ _ _ Hpre Hbad). apply loop_trace_collector.
Qed.

(** X11. Whatever the network answers, a run of [scrape_pokemon] only
    sends requests, prints error messages and pauses: it writes no file
    and prints nothing else, and its first event is the listing request
    with the [limit] and [offset] it was given. *)
Theorem X11_collector_only_fetches_logs_and_sleeps
    {World} (net : network World) (limit offset : Z) (s : state) :
  ∃ rest,
    (scrape_pokemon net limit offset s).1.2
      = EvGet (JStr POKEMON_ENDPOINT) (Some [("limit", limit); ("offset", offset)])
          :: rest
    ∧ forallb collector_event rest = true
    ∧ List.filter is_to_csv (scrape_pokemon net limit offset s).1.2 = [].
Proof.
  assert (∃ rest,
            (scrape_pokemon net limit offset s).1.2
              = EvGet (JStr POKEMON_ENDPOINT) (listing_query limit offset) :: rest
            ∧ forallb collector_event rest = true) as (rest & Hevs & Hrest).
  { destruct (fetch_result net (JStr POKEMON_ENDPOINT) (listing_query limit offset)
                (st_world s)) as [[listing|e] w1] eqn:Hf.
    - rewrite (scrape_after_listing _ _ _ _ _ _ Hf). rewrite lift_bind_run.
      destruct (dict_get listing "results" (JList [])) as [results|e];
        [|by eexists].
      rewrite lift_bind_run.
      destruct (py_iter results) as [items|e]; [|by eexists].
      rewrite bind_run.
      match goal with |- context [for_each items _ ?s1] =>
        pose proof (for_each_collector net items s1) as Hc;
        destruct (for_each items (scrape_entry net) s1) as [[[[]|e] evs] s2] end;
        cbn [fst snd] in *.
      + eexists. split; [reflexivity|]. cbn [app]. by rewrite app_nil_r.
      + by eexists.
    - exists []. split; [|done].
      unfold scrape_pokemon. rewrite bind_run. cbn [rows_new].
      rewrite bind_run, fetch_json_run. cbn [st_world st_rows].
      fold (listing_query limit offset). by rewrite Hf. }
  exists rest. split; [exact Hevs|]. split; [exact Hrest|].
  rewrite Hevs. cbn [List.filter is_to_csv].
  clear Hevs. induction rest as [|ev rest IH]; [done|].
  cbn [forallb] in Hrest. apply andb_prop in Hrest as [Hev Hrest].
  cbn [List.filter]. destruct ev; try discriminate; cbn [is_to_csv]; by apply IH.
Qed.

(* ================================================================= *)
(** * Further properties of [main] *)

(** X12. When the collector returns no row (an empty page, or a page
    whose entries all failed), [main] prints the preview and a total of
    0, then raises [KeyError] for [base_experience]: the frame of no row
    has no such column.  The average is not printed and the file is not
    written. *)
Theorem X12_no_row_no_file
    {World} (net : network World) (s : state) (listing : json) (w1 : World)
    (items : list json) :
  fetch_result net (JStr POKEMON_ENDPOINT) (listing_query 150 0) (st_world s)
    = (Return listing, w1) →
  page_entries listing = Some items →
  rows_of (entry_fetches net items w1) = [] →
  ∃ evs s',
    main net s = (Raise (KeyError "base_experience"), evs, s')
    ∧ printed evs
      = faults_of (entry_fetches net items w1)
        ++ [MsgText "Data Preview:"; MsgFrame (pd_DataFrame []); MsgTotal 0]
    ∧ length (faults_of (entry_fetches net items w1)) = length items
    ∧ List.filter is_to_csv evs = [].
Proof.
  intros Hf Hp Hrows. eexists _, _. unfold main. cbv zeta.
  rewrite bind_run, (scrape_run net _ _ _ _ _ _ Hf Hp), Hrows.
  unfold print. rewrite !emit_bind_run, lift_bind_run.
  cbn [average_base_experience df_getitem pd_DataFrame df_columns existsb
         mbind outcome_bind].
  split; [reflexivity|]. split; [|split].
  - rewrite printed_app. cbn [printed omap list_omap].
    fold (printed (loop_trace (entry_fetches net items w1))).
    by rewrite printed_loop_trace.
  - pose proof (rows_faults_length (entry_fetches net items w1)) as Hlen.
    rewrite Hrows, entry_fetches_length in Hlen. exact Hlen.
  - rewrite List.filter_app. unfold listing_query at 1.
    cbn [List.filter is_to_csv app].
    rewrite app_nil_r.
    pose proof (loop_trace_collector (entry_fetches net items w1)) as Hc.
    induction (loop_trace (entry_fetches net items w1)) as [|ev l IH]; [done|].
    cbn [forallb] in Hc. apply andb_prop in Hc as [Hev Hc].
    cbn [List.filter]. destruct ev; try discriminate; cbn [is_to_csv]; by apply IH.
Qed.

Lemma X12_witness :
  ∃ evs s',
    main (serve net_all_fail) start = (Raise (KeyError "base_experience"), evs, s')
    ∧ length (error_messages evs) = 3
    ∧ List.filter is_to_csv evs = [].
Proof.
  destruct (X12_no_row_no_file (serve net_all_fail) start
              (listing_of three_entries) tt three_entries)
    as (evs & s' & Hrun & Hprinted & _ & Hcsv); [reflexivity..|].
  exists evs, s'. split; [exact Hrun|]. split; [|exact Hcsv].
  unfold error_messages. rewrite Hprinted. reflexivity.
Defined.

Lemma average_defined rows vals :
  rows ≠ [] →
  int_cells (base_experiences rows) = Some vals →
  ∃ avg, average_base_experience (pd_DataFrame rows) = Return avg
         ∧ (vals = [] → avg = NaN).
Proof.
  intros Hr Hc. destruct vals as [|v vals].
  - exists NaN. split; [|done].
    unfold average_base_experience. rewrite (base_experience_column _ Hr).
    cbn [mbind outcome_bind].
    destruct (int_cells_dropna _ _ Hc) as [_ Hl].
    destruct (dropna (base_experiences rows)); [reflexivity|discriminate].
  - destruct (average_run rows (v :: vals) Hc) as (q & Hq & _); [done|].
    exists (Finite q). split; [exact Hq|done].
Qed.

(** X13. When at least one entry yields a row and every
    [base_experience] is an integer or null, [main] ends normally, even
    if other entries failed: after the events of the collector it prints
    the preview (the first 15 rows at most), the number of rows and the
    average, writes all the rows to [pokemon_api_data.csv] exactly once,
    and reports the same number of rows as saved. *)
Theorem X13_main_writes_the_rows_once
    {World} (net : network World) (s : state) (listing : json) (w1 : World)
    (items : list json) (vals : list Z) :
  fetch_result net (JStr POKEMON_ENDPOINT) (listing_query 150 0) (st_world s)
    = (Return listing, w1) →
  page_entries listing = Some items →
  let rows := rows_of (entry_fetches net items w1) in
  rows ≠ [] →
  int_cells (base_experiences rows) = Some vals →
  ∃ avg evs s',
    main net s = (Return tt, evs, s')
    ∧ printed evs
      = faults_of (entry_fetches net items w1)
        ++ [ MsgText "Data Preview:";
             MsgFrame (df_head 15 (pd_DataFrame rows));
             MsgTotal (length rows);
             MsgAverage avg;
             MsgSaved (length rows) "pokemon_api_data.csv" ]
    ∧ List.filter is_to_csv evs
      = [EvToCsv "pokemon_api_data.csv" (pd_DataFrame rows)]
    ∧ length rows + length (faults_of (entry_fetches net items w1)) = length items
    ∧ (length (df_rows (df_head 15 (pd_DataFrame rows))) ≤ 15)%nat.
Proof.
  intros Hf Hp rows Hne Hc.
  destruct (average_defined rows vals Hne Hc) as (avg & Havg & _).
  exists avg. eexists _, _.
  split; [exact (main_run net s listing w1 items avg Hf Hp Havg)|].
  fold rows. split; [|split; [|split]].
  - rewrite printed_app. cbn [printed omap list_omap].
    fold (printed (loop_trace (entry_fetches net items w1))).
    by rewrite printed_loop_trace.
  - rewrite List.filter_app. unfold listing_query at 1.
    cbn [List.filter is_to_csv app].
    replace (List.filter is_to_csv (loop_trace (entry_fetches net items w1)))
      with (@nil event); [reflexivity|].
    pose proof (loop_trace_collector (entry_fetches net items w1)) as Hcol.
    induction (loop_trace (entry_fetches net items w1)) as [|ev l IH]; [done|].
    cbn [forallb] in Hcol. apply andb_prop in Hcol as [Hev Hcol].
    cbn [List.filter]. destruct ev; try discriminate; cbn [is_to_csv]; by apply IH.
  - unfold rows. rewrite rows_faults_length. apply entry_fetches_length.
  - cbn [df_head df_rows]. rewrite length_take. lia.
Qed.

Lemma X13_witness :
  ∃ avg evs s',
    main (serve net_timeout) start = (Return tt, evs, s')
    ∧ MsgAverage avg ∈ printed evs
    ∧ length (List.filter is_to_csv evs) = 1.
Proof.
  destruct (X13_main_writes_the_rows_once (serve net_timeout) start
              (listing_of three_entries) tt three_entries [64]%Z)
    as (avg & evs & s' & Hrun & Hprinted & Hcsv & _).
  - reflexivity.
  - reflexivity.
  - discriminate.
  - reflexivity.
  - exists avg, evs, s'. split; [exact Hrun|]. split.
    + rewrite Hprinted. apply elem_of_app. right.
      do 3 apply list_elem_of_further. apply list_elem_of_here.
    + by rewrite Hcsv.
Defined.

(* ================================================================= *)
(** * Further properties of the exported file and of the summary *)



Lemma dropna_app l1 l2 : dropna (l1 ++ l2) = dropna l1 ++ dropna l2.
Proof. apply List.filter_app. Qed.

(** X15. A row whose [base_experience] is null does not count in the
    average: with or without it, at any place of a result set that has
    other rows, line 94 computes the same. *)
Theorem X15_null_rows_do_not_count (rows1 rows2 : list FlatRow) (r : FlatRow) :
  row_base_experience r = JNull →
  rows1 ++ rows2 ≠ [] →
  average_base_experience (pd_DataFrame (rows1 ++ r :: rows2))
  = average_base_experience (pd_DataFrame (rows1 ++ rows2)).
Proof.
  intros Hr Hne. unfold average_base_experience.
  rewrite !base_experience_column; [|done|by destruct rows1].
  cbn [mbind outcome_bind]. unfold base_experiences.
  rewrite !fmap_app. cbn [fmap list_fmap]. rewrite !dropna_app.
  cbn [dropna List.filter]. by rewrite Hr.
Qed.

Lemma X15_witness :
  average_base_experience
    (pd_DataFrame ([row_with (JInt 10)] ++ row_with JNull :: [row_with (JInt 20)]))
  = average_base_experience (pd_DataFrame ([row_with (JInt 10)] ++ [row_with (JInt 20)])).
Proof.
  apply X15_null_rows_do_not_count; [reflexivity|discriminate].
Defined.








(* ================================================================= *)
(** * What the script asks of the network *)

Section SameAnswers.
Context {World : Type}.
Variables net1 net2 : network World.
Hypothesis same :
  ∀ url params w,
    net1 url USER_AGENT params TIMEOUT w = net2 url USER_AGENT params TIMEOUT w.

Lemma fetch_result_same url params w :
  fetch_result net1 url params w = fetch_result net2 url params w.
Proof.
  unfold fetch_result.
  change [("User-Agent", "CMCC-API-Assignment/1.0")] with USER_AGENT.
  change 20%Z with TIMEOUT. by rewrite same.
Qed.

Lemma entry_fetches_same items w :
  entry_fetches net1 items w = entry_fetches net2 items w
  ∧ world_after net1 items w = world_after net2 items w.
Proof.
  revert w. induction items as [|p items IH]; intros w; [done|].
  cbn [entry_fetches world_after]. rewrite fetch_result_same.
  destruct (fetch_result net2 (entry_url p) None w) as [o w'].
  cbn [snd]. destruct (IH w') as [-> ->]. done.
Qed.

Lemma for_each_same items (s : state) :
  for_each items (scrape_entry net1) s = for_each items (scrape_entry net2) s.
Proof.
  destruct (first_non_dict items) as [Hd|(pre & bad & post & -> & Hpre & Hbad)].
  - rewrite !(for_each_run _ _ _ Hd).
    by destruct (entry_fetches_same items (st_world s)) as [-> ->].
  - rewrite !(for_each_abort _ _ _ _ _ Hpre Hbad).
    by destruct (entry_fetches_same pre (st_world s)) as [-> ->].
Qed.

Lemma scrape_same limit offset (s : state) :
  scrape_pokemon net1 limit offset s = scrape_pokemon net2 limit offset s.
Proof.
  destruct (fetch_result net2 (JStr POKEMON_ENDPOINT) (listing_query limit offset)
              (st_world s)) as [[listing|e] w1] eqn:Hf2.
  - assert (fetch_result net1 (JStr POKEMON_ENDPOINT) (listing_query limit offset)
              (st_world s) = (Return listing, w1)) as Hf1
      by (by rewrite fetch_result_same).
    rewrite (scrape_after_listing net1 _ _ _ _ _ Hf1),
            (scrape_after_listing net2 _ _ _ _ _ Hf2).
    rewrite !lift_bind_run.
    destruct (dict_get listing "results" (JList [])) as [results|e]; [|done].
    rewrite !lift_bind_run.
    destruct (py_iter results) as [items|e]; [|done].
    rewrite !bind_run. by rewrite for_each_same.
  - unfold scrape_pokemon. rewrite !bind_run. cbn [rows_new].
    rewrite !bind_run, !fetch_json_run. cbn [st_world st_rows].
    fold (listing_query limit offset). by rewrite fetch_result_same, Hf2.
Qed.

End SameAnswers.

(** X17. Every request of the script carries the header
    [User-Agent: CMCC-API-Assignment/1.0] and a timeout of 20 seconds:
    two networks that answer such requests alike cannot be told apart by
    [scrape_pokemon] or by [main], whatever they would answer to other
    requests. *)
Theorem X17_requests_carry_header_and_timeout
    {World} (net1 net2 : network World) :
  (∀ url params w,
     net1 url USER_AGENT params TIMEOUT w = net2 url USER_AGENT params TIMEOUT w) →
  ∀ (s : state),
    (∀ limit offset,
       scrape_pokemon net1 limit offset s = scrape_pokemon net2 limit offset s)
    ∧ main net1 s = main net2 s.
Proof.
  intros Hsame s. split.
  - intros limit offset. by apply scrape_same.
  - unfold main. cbv zeta. rewrite !bind_run.
    by rewrite (scrape_same net1 net2 Hsame).
Qed.

Lemma X17_witness :
  main (picky net_ok) start = main (serve net_ok) start.
Proof.
  apply (X17_requests_carry_header_and_timeout (picky net_ok) (serve net_ok)).
  intros url params w. reflexivity.
Defined.
